(** * react-sticky: the sticky threshold handler and the scroll broadcaster

    A shallow embedding of [src/Sticky.tsx] and [src/Container.tsx].

    - JavaScript numbers are IEEE-754 doubles: Rocq's primitive [float].
      A binding typed [number] that can hold [undefined] at run time is an
      [option float]; arithmetic and comparison coerce it with [ToNumber].
    - A style object ([Record<string, any>]) is a [gmap string StyleVal].
    - Code that can throw returns a [Result].
    - React hooks are modelled by what they keep: [useState] / [useRef] cells
      are record fields, a [useCallback] closure is the record of the
      variables it captured at the render that created it. *)

From Stdlib Require Import Floats.
From stdpp Require Import gmap strings list.

(** ** JavaScript values *)

Module JS.

(** [undefined] is [None]. *)
Definition value := option float.

(** [ToNumber(undefined)] is [NaN]. *)
Definition ToNumber (v : value) : float := default nan v.

(** [a ?? d] *)
Definition nullish {A : Type} (a : option A) (d : A) : A := default d a.

(** truthiness of an optional boolean property *)
Definition truthy (b : option bool) : bool := default false b.

(** [a <= b], [a > b] and [a == b] on numbers.  [a > b] is evaluated as
    [b < a]. *)
Definition le (a b : float) : bool := PrimFloat.leb a b.
Definition gt (a b : float) : bool := PrimFloat.ltb b a.

Definition neg (a : float) : float := PrimFloat.opp a.
Definition add (a b : float) : float := PrimFloat.add a b.
Definition sub (a b : float) : float := PrimFloat.sub a b.

Inductive Exn := TypeError (msg : string).

Inductive Result (A : Type) :=
| Ok (a : A)
| Throw (e : Exn).
Arguments Ok {A} a.
Arguments Throw {A} e.

#[global] Instance Result_ret : MRet Result := fun A a => Ok a.
#[global] Instance Result_bind : MBind Result := fun A B k r =>
  match r with
  | Ok a => k a
  | Throw e => Throw e
  end.

(** Reading a property of a reference that may be [null]. *)
Definition deref {A : Type} (o : option A) : Result A :=
  match o with
  | Some a => Ok a
  | None => Throw (TypeError "Cannot read properties of null")
  end.

End JS.
Import JS.

(** ** The DOM as the two components read it *)

Record DOMRect := {
  rect_top : float;
  rect_bottom : float;
  rect_left : float;
  rect_width : float;
  rect_height : float;
}.

(** The value of a CSS property written by the code.  A template literal
    [`${n}px`] keeps its number; the conversion of a double to decimal digits
    is not modelled. *)
Inductive CssVal :=
| CssStr (s : string)
| CssPx (n : float).

(** A value stored in a style object.  [SVInset n] is
    [`inset(${n}px 0 0 0)`]. *)
Inductive StyleVal :=
| SVStr (s : string)
| SVNum (n : float)
| SVUndefined
| SVInset (n : float).

Definition SVOfValue (v : JS.value) : StyleVal :=
  match v with
  | Some n => SVNum n
  | None => SVUndefined
  end.

Record OffsetParent := { op_scrollTop : float }.

(** The container's root [<div>], [node.current] when mounted. *)
Record RootNode := {
  root_rect : DOMRect;
  scrollTop : float;
  offsetTop : float;
  offsetParent : option OffsetParent;
}.

(** The placeholder [<div>] of a Sticky, with its inline [paddingBottom]. *)
Record PlaceholderNode := {
  ph_rect : DOMRect;
  ph_offsetTop : float;
  paddingBottom : CssVal;
}.

Definition setPaddingBottom (v : CssVal) (p : PlaceholderNode) : PlaceholderNode :=
  {| ph_rect := ph_rect p; ph_offsetTop := ph_offsetTop p; paddingBottom := v |}.

Record ContentNode := { content_rect : DOMRect }.

(** The three refs a Sticky handler reads: the container's [node], its own
    [placeholder] and [content].  [None] is a ref whose [current] is [null]
    or [undefined]. *)
Record Dom := {
  node : option RootNode;
  placeholder : option PlaceholderNode;
  content : option ContentNode;
}.

(** The object a container hands to every subscriber. *)
Record GeometrySample := {
  sample_distanceFromTop : JS.value;
  sample_distanceFromBottom : JS.value;
}.

(** [const { top, bottom } = node.current?.getBoundingClientRect() ?? {}]
    followed by [{ distanceFromTop: top, distanceFromBottom: bottom }]. *)
Definition measure (root : option DOMRect) : GeometrySample :=
  {| sample_distanceFromTop := rect_top <$> root;
     sample_distanceFromBottom := rect_bottom <$> root |}.

(** ** Sticky.tsx *)

Module Sticky.

Record StickyProps := {
  relative : option bool;
  topOffset : option float;
  bottomOffset : option float;
  disableCompensation : option bool;
  disableHardwareAcceleration : option bool;
}.

Definition defaultProps : StickyProps :=
  {| relative := None; topOffset := None; bottomOffset := None;
     disableCompensation := None; disableHardwareAcceleration := None |}.

Record StickyState := {
  isSticky : bool;
  wasSticky : bool;
  distanceFromTop : JS.value;
  distanceFromBottom : float;
  calculatedHeight : float;
  style : gmap string StyleVal;
}.

(** The argument of [useState]. *)
Definition initialState : StickyState :=
  {| isSticky := false; wasSticky := false;
     distanceFromTop := Some 0%float; distanceFromBottom := 0%float;
     calculatedHeight := 0%float; style := ∅ |}.

(** [calculateStyle].  [props] are the props of the render that created
    the callback. *)
Definition calculateStyle (props : StickyProps) (dom : Dom)
    (isSticky : bool) (distanceFromBottom : JS.value)
    (calculatedHeight : float) : Result (gmap string StyleVal) :=
  let parent := node dom in
  let placeholderClientRect := ph_rect <$> placeholder dom in
  let bottomDifference :=
    sub (sub (ToNumber distanceFromBottom) (nullish (bottomOffset props) 0%float))
        calculatedHeight in
  if isSticky then
    if truthy (relative props) then
      p ← deref parent;
      let top := sub (offsetTop p)
                     (nullish (op_scrollTop <$> offsetParent p) 0%float) in
      let width := SVOfValue (rect_width <$> placeholderClientRect) in
      if le bottomDifference 0%float then
        mret (<["clipPath" := SVInset (neg bottomDifference)]>
              (<["top" := SVNum (add top bottomDifference)]>
               (<["width" := width]>
                (<["top" := SVNum top]>
                 (<["position" := SVStr "absolute"]> ∅)))))
      else
        mret (<["width" := width]>
              (<["top" := SVNum top]>
               (<["position" := SVStr "absolute"]> ∅)))
    else
      mret (<["width" := SVOfValue (rect_width <$> placeholderClientRect)]>
            (<["left" := SVOfValue (rect_left <$> placeholderClientRect)]>
             (<["top" := SVNum (if gt bottomDifference 0%float
                                then 0%float else bottomDifference)]>
              (<["position" := SVStr "fixed"]> ∅))))
  else mret ∅.

(** [handleContainerEvent].  [props] and [state] are the ones captured by
    the closure; [props0] are those captured by [calculateStyle], whose
    dependency list is empty.  The result is the argument of [setState]
    and the DOM after the write to the placeholder. *)
Definition handleContainerEvent (props0 props : StickyProps)
    (state : StickyState) (dom : Dom) (sample : GeometrySample)
    : Result (StickyState * Dom) :=
  let distanceFromBottom := sample_distanceFromBottom sample in
  distanceFromTop ←
    (if truthy (relative props) then
       parent ← deref (node dom);
       mret (Some (add (neg (add (scrollTop parent) (offsetTop parent)))
                       (nullish (ph_offsetTop <$> placeholder dom) 0%float)))
     else mret (sample_distanceFromTop sample));
  let contentClientRect := content_rect <$> content dom in
  let calculatedHeight := nullish (rect_height <$> contentClientRect) 0%float in
  let wasSticky := isSticky state in
  let isSticky :=
    le (ToNumber distanceFromTop) (neg (nullish (topOffset props) 0%float))
    && gt (ToNumber distanceFromBottom)
          (neg (nullish (bottomOffset props) 0%float)) in
  style ← calculateStyle props0 dom isSticky distanceFromBottom calculatedHeight;
  let distanceFromBottom := sub (ToNumber distanceFromBottom) calculatedHeight in
  let style :=
    if negb (truthy (disableHardwareAcceleration props))
    then <["transform" := SVStr "translateZ(0)"]> style
    else style in
  let placeholder' :=
    setPaddingBottom
      (CssPx (if isSticky then calculatedHeight else 0%float))
    <$> placeholder dom in
  mret ({| isSticky := isSticky; wasSticky := wasSticky;
           distanceFromTop := distanceFromTop;
           distanceFromBottom := distanceFromBottom;
           calculatedHeight := calculatedHeight; style := style |},
        {| node := node dom; placeholder := placeholder';
           content := content dom |}).

(** The effect on [[props.disableCompensation]], lines 250-254.
    [placeholder.current!] is dereferenced without a test. *)
Definition compensationEffect (props : StickyProps) (state : StickyState)
    (dom : Dom) : Result Dom :=
  p ← deref (placeholder dom);
  let v :=
    if truthy (disableCompensation props) then CssStr "0"
    else CssPx (if isSticky state then calculatedHeight state else 0%float) in
  mret {| node := node dom; placeholder := Some (setPaddingBottom v p);
          content := content dom |}.

(** *** The component's life cycle

    [handleContainerEvent] is rebuilt by [useCallback] whenever one of its
    dependencies changes, and every such closure keeps the props and state of
    the render that built it.  [calculateStyle] has an empty dependency list:
    every render sees the first render's function, with the first render's
    props. *)
Record Listener := {
  cl_props0 : StickyProps;
  cl_props : StickyProps;
  cl_state : StickyState;
}.

Definition callListener (l : Listener) (dom : Dom) (sample : GeometrySample)
    : Result (StickyState * Dom) :=
  handleContainerEvent (cl_props0 l) (cl_props l) (cl_state l) dom sample.

(** A mounted Sticky: its current props, its [useState] cell, and the
    listener it handed to [context.subscribe]. *)
Record Instance := {
  inst_props : StickyProps;
  inst_state : StickyState;
  inst_listener : Listener;
}.

(** First render and the effect of lines 238-248.  The effect's dependency
    list is empty, so it runs once, with the first render's
    [handleContainerEvent]. *)
Definition mount (props : StickyProps) : Instance :=
  {| inst_props := props;
     inst_state := initialState;
     inst_listener :=
       {| cl_props0 := props; cl_props := props; cl_state := initialState |} |}.

(** One broadcast reaches the instance: the subscribed listener runs and
    its [setState] replaces the state cell.  The render that follows builds a
    new [handleContainerEvent], which nothing subscribes. *)
Definition deliver (inst : Instance) (dom : Dom) (sample : GeometrySample)
    : Result (Instance * Dom) :=
  r ← callListener (inst_listener inst) dom sample;
  mret ({| inst_props := inst_props inst;
           inst_state := r.1;
           inst_listener := inst_listener inst |}, r.2).

(** The value of [StickyContext] as a Sticky sees it: each capability is a
    function on the state [C] of whatever provides the context, or is
    missing, as in the default value [{}] of [createContext]. *)
Record StickyContext (C H : Type) := {
  ctx_subscribe : option (H → C → C);
  ctx_unsubscribe : option (H → C → C);
}.
Arguments ctx_subscribe {C H} _.
Arguments ctx_unsubscribe {C H} _.

Definition noContext {C H : Type} : StickyContext C H :=
  {| ctx_subscribe := None; ctx_unsubscribe := None |}.

(** The body of the effect of lines 238-244. *)
Definition subscribeEffect {C H : Type} (context : StickyContext C H)
    (handler : H) (c : C) : Result C :=
  match ctx_subscribe context with
  | None =>
      Throw (TypeError "Expected Sticky to be mounted within StickyContainer")
  | Some subscribe => mret (subscribe handler c)
  end.

(** Its cleanup, lines 245-247. *)
Definition subscribeCleanup {C H : Type} (context : StickyContext C H)
    (handler : H) (c : C) : Result C :=
  match ctx_unsubscribe context with
  | None => Throw (TypeError "context.unsubscribe is not a function")
  | Some unsubscribe => mret (unsubscribe handler c)
  end.

End Sticky.

(** ** Container.tsx *)

Module Container.

Definition events : list string :=
  ["resize"; "scroll"; "touchstart"; "touchmove"; "touchend"; "pageshow"; "load"].

Section Broadcaster.

(** Subscribers are functions, compared by reference ([!==]). *)
Context {Handler : Type} `{EqDecision Handler}.

(** The updater [subscribe] passes to [setSubscribers], line 38. *)
Definition subscribeUpdater (handler : Handler) (prev : list Handler)
    : list Handler :=
  prev ++ [handler].

(** The updater [unsubscribe] passes to [setSubscribers], lines 42-45. *)
Definition unsubscribeUpdater (handler : Handler) (prev : list Handler)
    : list Handler :=
  filter (λ current, current ≠ handler) prev ++ [handler].

(** A callback handed to [raf]: the handle [raf] returned for it and the
    [subscribers] array its closure captured. *)
Record Scheduled := {
  sched_handle : nat;
  sched_subscribers : list Handler;
}.

(** What the container does that can be seen from outside. *)
Inductive Obs :=
| ObsRaf (handle : nat)
| ObsBroadcast (sample : GeometrySample)
| ObsInvoke (handler : Handler) (sample : GeometrySample).

(** The [useState] cell, the two refs, the frame queue of the [raf]
    library with its next handle, and the observations so far, oldest
    first. *)
Record State := {
  subscribers : list Handler;
  rafHandle : option nat;
  framePending : bool;
  rafQueue : list Scheduled;
  rafNext : nat;
  trace : list Obs;
}.

(** Handles of [requestAnimationFrame] are positive. *)
Definition init : State :=
  {| subscribers := []; rafHandle := None; framePending := false;
     rafQueue := []; rafNext := 1; trace := [] |}.

Definition observe (o : Obs) (c : State) : State :=
  {| subscribers := subscribers c; rafHandle := rafHandle c;
     framePending := framePending c; rafQueue := rafQueue c;
     rafNext := rafNext c; trace := trace c ++ [o] |}.

(** The cleanup of the effect on [[notifySubscribers]], lines 74-77. *)
Definition cancelPending (c : State) : State :=
  match rafHandle c with
  | Some handle =>
      if bool_decide (handle = 0) then c
      else
        {| subscribers := subscribers c; rafHandle := None;
           framePending := framePending c;
           rafQueue := filter (λ s, sched_handle s ≠ handle) (rafQueue c);
           rafNext := rafNext c; trace := trace c |}
  | None => c
  end.

(** [setSubscribers updater].  Every updater returns a new array, so the
    next render builds a new [notifySubscribers] and the effect that depends
    on it is cleaned up and run again. *)
Definition setSubscribers (updater : list Handler → list Handler) (c : State)
    : State :=
  cancelPending
    {| subscribers := updater (subscribers c); rafHandle := rafHandle c;
       framePending := framePending c; rafQueue := rafQueue c;
       rafNext := rafNext c; trace := trace c |}.

Definition subscribe (handler : Handler) : State → State :=
  setSubscribers (subscribeUpdater handler).

Definition unsubscribe (handler : Handler) : State → State :=
  setSubscribers (unsubscribeUpdater handler).

(** [notifySubscribers] up to the call of [raf], lines 50-64. *)
Definition notifySubscribers (c : State) : State :=
  if framePending c then c
  else
    let handle := rafNext c in
    {| subscribers := subscribers c; rafHandle := Some handle;
       framePending := true;
       rafQueue :=
         rafQueue c ++ [{| sched_handle := handle;
                           sched_subscribers := subscribers c |}];
       rafNext := S handle; trace := trace c ++ [ObsRaf handle] |}.

(** What a subscriber does to the registry, through the context, while it
    handles a sample. *)
Inductive RegistryCall :=
| CallSubscribe (handler : Handler)
| CallUnsubscribe (handler : Handler).

Definition applyCall (c : State) (call : RegistryCall) : State :=
  match call with
  | CallSubscribe h => subscribe h c
  | CallUnsubscribe h => unsubscribe h c
  end.

(** What a subscriber does when it is called: the calls it makes to the
    registry, and whether it then throws instead of returning. *)
Record Reaction := {
  calls : list RegistryCall;
  throws : bool;
}.

Variable react : Handler → GeometrySample → Reaction.

(** One call [handler(sample)]. *)
Definition invoke (sample : GeometrySample) (c : State) (handler : Handler)
    : State :=
  foldl applyCall (observe (ObsInvoke handler sample) c)
    (calls (react handler sample)).

(** [subscribers.forEach(handler => handler(sample))].  Nothing catches
    what a handler throws: the first one that throws ends the loop. *)
Fixpoint forEach (sample : GeometrySample) (c : State) (hs : list Handler)
    : State :=
  match hs with
  | [] => c
  | h :: hs =>
      let c := invoke sample c h in
      if throws (react h sample) then c else forEach sample c hs
  end.

(** The handlers such a loop calls: those up to the first that throws,
    that one included. *)
Fixpoint reached (sample : GeometrySample) (hs : list Handler)
    : list Handler :=
  match hs with
  | [] => []
  | h :: hs =>
      h :: (if throws (react h sample) then [] else reached sample hs)
  end.

(** The callback given to [raf], lines 53-60, run when its frame comes.
    [root] is the bounding rectangle of [node.current], if it is mounted. *)
Definition frameCallback (root : option DOMRect) (c : State) (s : Scheduled)
    : State :=
  let c :=
    {| subscribers := subscribers c; rafHandle := rafHandle c;
       framePending := false; rafQueue := rafQueue c;
       rafNext := rafNext c; trace := trace c |} in
  let sample := measure root in
  forEach sample (observe (ObsBroadcast sample) c) (sched_subscribers s).

(** A frame: the [raf] library runs the callbacks queued for it. *)
Definition frame (root : option DOMRect) (c : State) : State :=
  foldl (frameCallback root)
    {| subscribers := subscribers c; rafHandle := rafHandle c;
       framePending := framePending c; rafQueue := [];
       rafNext := rafNext c; trace := trace c |}
    (rafQueue c).

(** What can happen to a mounted container. *)
Inductive Event :=
| EvDom
| EvFrame (root : option DOMRect)
| EvSubscribe (handler : Handler)
| EvUnsubscribe (handler : Handler).

Definition step (c : State) (e : Event) : State :=
  match e with
  | EvDom => notifySubscribers c
  | EvFrame root => frame root c
  | EvSubscribe h => subscribe h c
  | EvUnsubscribe h => unsubscribe h c
  end.

Definition run (c : State) (es : list Event) : State := foldl step c es.

Definition isFrame (e : Event) : bool :=
  match e with
  | EvFrame _ => true
  | _ => false
  end.

Definition isRaf (o : Obs) : bool :=
  match o with
  | ObsRaf _ => true
  | _ => false
  end.

Definition isBroadcast (o : Obs) : bool :=
  match o with
  | ObsBroadcast _ => true
  | _ => false
  end.

(** The handlers invoked, in order. *)
Definition invoked (t : list Obs) : list Handler :=
  omap (λ o, match o with ObsInvoke h _ => Some h | _ => None end) t.

(** The number of callbacks handed to [raf], and of broadcasts made. *)
Definition rafCalls (c : State) : nat := length (filter isRaf (trace c)).
Definition broadcasts (c : State) : nat := length (filter isBroadcast (trace c)).

(** The single-slot discipline of the frame queue: at most one callback of
    this container is waiting, and none is while the flag is down. *)
Definition throttled (c : State) : Prop :=
  (length (rafQueue c) ≤ 1)%nat ∧ (framePending c = false → rafQueue c = []).

(** What the two refs and the frame queue have in common in every state
    the container reaches: handles start at 1, and a waiting callback is
    the one [rafHandle] names, with the flag up. *)
Definition wellFormed (c : State) : Prop :=
  1 ≤ rafNext c
  ∧ (rafQueue c = []
     ∨ ∃ s, rafQueue c = [s] ∧ rafHandle c = Some (sched_handle s)
            ∧ 1 ≤ sched_handle s ∧ framePending c = true).

(** The flag is up and no callback is waiting to lower it. *)
Definition stalled (c : State) : Prop :=
  framePending c = true ∧ rafQueue c = [].

(** The context value the container provides, lines 86-90. *)
Definition context : Sticky.StickyContext State Handler :=
  {| Sticky.ctx_subscribe := Some subscribe;
     Sticky.ctx_unsubscribe := Some unsubscribe |}.

End Broadcaster.

Arguments State Handler : clear implicits.
Arguments Event Handler : clear implicits.
Arguments Obs Handler : clear implicits.
Arguments RegistryCall Handler : clear implicits.
Arguments Reaction Handler : clear implicits.
Arguments Scheduled Handler : clear implicits.

End Container.

(** ** Concrete inputs used by the examples below *)

Module Fixture.
Import Sticky.

Definition rect (top bottom left width height : float) : DOMRect :=
  {| rect_top := top; rect_bottom := bottom; rect_left := left;
     rect_width := width; rect_height := height |}.

(** A container whose top edge is 10px above the viewport top and whose
    bottom edge is 100px below it. *)
Definition rootRect : DOMRect := rect (-10) 100 0 300 110.

Definition root : RootNode :=
  {| root_rect := rootRect; scrollTop := 0; offsetTop := 0;
     offsetParent := None |}.

(** A Sticky with 50px of content. *)
Definition dom : Dom :=
  {| node := Some root;
     placeholder :=
       Some {| ph_rect := rect 0 0 8 300 0; ph_offsetTop := 0;
               paddingBottom := CssStr "" |};
     content := Some {| content_rect := rect 0 50 8 300 50 |} |}.

(** The same Sticky once the container's root is gone. *)
Definition domUnmounted : Dom :=
  {| node := None; placeholder := placeholder dom; content := content dom |}.

(** Past the top threshold, far from the bottom one. *)
Definition sampleStuck : GeometrySample := measure (Some rootRect).

(** Container still 10px below the viewport top. *)
Definition sampleFlow : GeometrySample := measure (Some (rect 10 120 0 300 110)).

Definition propsNoCompensation : StickyProps :=
  {| relative := None; topOffset := None; bottomOffset := None;
     disableCompensation := Some true; disableHardwareAcceleration := None |}.

Definition propsRelative : StickyProps :=
  {| relative := Some true; topOffset := None; bottomOffset := None;
     disableCompensation := None; disableHardwareAcceleration := None |}.

(** A subscriber that unsubscribes handler 2 whenever it is handler 1 that
    runs, and does nothing otherwise. *)
Definition reactDrop2 (h : nat) (_ : GeometrySample)
    : Container.Reaction nat :=
  {| Container.calls :=
       if bool_decide (h = 1) then [Container.CallUnsubscribe 2] else [];
     Container.throws := false |}.

Definition reactNothing (h : nat) (_ : GeometrySample)
    : Container.Reaction nat :=
  {| Container.calls := []; Container.throws := false |}.

(** Handler 2 throws; the others return. *)
Definition reactThrow2 (h : nat) (_ : GeometrySample)
    : Container.Reaction nat :=
  {| Container.calls := []; Container.throws := bool_decide (h = 2) |}.

(** A Sticky whose container root is gone: none of the three refs is
    attached. *)
Definition domDetached : Dom :=
  {| node := None; placeholder := None; content := None |}.

End Fixture.

(** * Properties *)

Import Sticky.

(** ** Comparison of doubles *)




(** No comparison holds of [NaN]. *)
Lemma le_nan (b : float) : JS.le nan b = false.
Proof. unfold JS.le. rewrite FloatAxioms.leb_spec. reflexivity. Qed.

Lemma gt_nan (b : float) : JS.gt nan b = false.
Proof.
  unfold JS.gt. rewrite FloatAxioms.ltb_spec. unfold SpecFloat.SFltb.
  change (Prim2SF nan) with SpecFloat.S754_nan.
  destruct (Prim2SF b) as [| | |[] m e]; reflexivity.
Qed.

(** ** The recomputation handler *)

(** Inversion of a run of the handler that returned: the distance it used
    for the top test, the style [calculateStyle] returned, and every field
    of the published state. *)
Lemma handleContainerEvent_Ok props0 props state dom sample st' dom' :
  handleContainerEvent props0 props state dom sample = Ok (st', dom') →
  ∃ dft sty,
    (if truthy (relative props)
     then ∃ parent, node dom = Some parent ∧
            dft = Some (add (neg (add (scrollTop parent) (offsetTop parent)))
                            (nullish (ph_offsetTop <$> placeholder dom) 0%float))
     else dft = sample_distanceFromTop sample)
    ∧ calculateStyle props0 dom (isSticky st')
        (sample_distanceFromBottom sample) (calculatedHeight st') = Ok sty
    ∧ isSticky st' =
        le (ToNumber dft) (neg (nullish (topOffset props) 0%float))
        && gt (ToNumber (sample_distanceFromBottom sample))
              (neg (nullish (bottomOffset props) 0%float))
    ∧ wasSticky st' = isSticky state
    ∧ distanceFromTop st' = dft
    ∧ calculatedHeight st' =
        nullish (rect_height <$> (content_rect <$> content dom)) 0%float
    ∧ style st' =
        (if negb (truthy (disableHardwareAcceleration props))
         then <["transform" := SVStr "translateZ(0)"]> sty else sty)
    ∧ placeholder dom' =
        (setPaddingBottom
           (CssPx (if isSticky st' then calculatedHeight st' else 0%float))
         <$> placeholder dom).
Proof.
  unfold handleContainerEvent. intros Hrun.
  destruct (truthy (relative props)).
  - destruct (node dom) as [parent|] eqn:Hnode; simpl in Hrun; [|discriminate].
    match type of Hrun with
    | context [calculateStyle ?a ?b ?c ?d ?e] =>
        destruct (calculateStyle a b c d e) as [sty|] eqn:Hsty
    end; simpl in Hrun; [|discriminate].
    injection Hrun as <- <-. simpl.
    eexists _, sty. repeat split; eauto.
  - simpl in Hrun.
    match type of Hrun with
    | context [calculateStyle ?a ?b ?c ?d ?e] =>
        destruct (calculateStyle a b c d e) as [sty|] eqn:Hsty
    end; simpl in Hrun; [|discriminate].
    injection Hrun as <- <-. simpl.
    eexists _, sty. repeat split; eauto.
Qed.

(** [calculateStyle] only throws for a sticky element in relative mode whose
    container root is not mounted. *)
Lemma calculateStyle_returns props dom sticky dfb height :
  truthy (relative props) = false ∨ is_Some (node dom) ∨ sticky = false →
  ∃ sty, calculateStyle props dom sticky dfb height = Ok sty.
Proof.
  unfold calculateStyle. intros Hok.
  destruct sticky; [|eauto].
  destruct (truthy (relative props)); [|eauto].
  destruct (node dom) as [p|]; simpl.
  - destruct (le _ _); eauto.
  - destruct Hok as [?|[[? ?]|?]]; discriminate.
Qed.

(** The handler returns whenever the container root is mounted, and also
    without it when neither closure is in relative mode. *)
Lemma handleContainerEvent_returns props0 props state dom sample :
  is_Some (node dom)
  ∨ (truthy (relative props) = false ∧ truthy (relative props0) = false) →
  ∃ st' dom', handleContainerEvent props0 props state dom sample = Ok (st', dom').
Proof.
  intros Hok. unfold handleContainerEvent.
  assert (∀ b dfb h, ∃ sty, calculateStyle props0 dom b dfb h = Ok sty) as Hcalc.
  { intros. apply calculateStyle_returns. destruct Hok as [?|[_ ?]]; auto. }
  destruct (truthy (relative props)).
  - destruct (node dom) as [parent|]; simpl.
    + match goal with
      | |- context [calculateStyle ?a ?b ?c ?d ?e] =>
          destruct (Hcalc c d e) as [sty ->]
      end. simpl. eauto.
    + destruct Hok as [[? ?]|[? _]]; discriminate.
  - simpl.
    match goal with
    | |- context [calculateStyle ?a ?b ?c ?d ?e] =>
        destruct (Hcalc c d e) as [sty ->]
    end. simpl. eauto.
Qed.



(** C10.  The sticky decision has no memory: two runs of the handler that
    agree on [relative], [topOffset], [bottomOffset], on the DOM and on the
    sample, whatever state each closure captured, publish the same
    [isSticky]; and one returns exactly when the other does. *)
Theorem isSticky_memoryless props0 props1 props2 state1 state2 dom sample :
  relative props1 = relative props2 →
  topOffset props1 = topOffset props2 →
  bottomOffset props1 = bottomOffset props2 →
  (∀ st1 dom1 st2 dom2,
     handleContainerEvent props0 props1 state1 dom sample = Ok (st1, dom1) →
     handleContainerEvent props0 props2 state2 dom sample = Ok (st2, dom2) →
     isSticky st1 = isSticky st2)
  ∧ ((∃ r, handleContainerEvent props0 props1 state1 dom sample = Ok r)
     ↔ (∃ r, handleContainerEvent props0 props2 state2 dom sample = Ok r)).
Proof.
  intros Hrel Htop Hbot. split.
  - intros st1 dom1 st2 dom2 H1 H2.
    destruct (handleContainerEvent_Ok _ _ _ _ _ _ _ H1)
      as (d1 & _ & Hd1 & _ & Hs1 & _).
    destruct (handleContainerEvent_Ok _ _ _ _ _ _ _ H2)
      as (d2 & _ & Hd2 & _ & Hs2 & _).
    rewrite Hs1, Hs2, Htop, Hbot. rewrite <- Hrel in Hd2.
    assert (d1 = d2) as ->; [|reflexivity].
    destruct (truthy (relative props1)).
    + destruct Hd1 as (p1 & Hp1 & ->), Hd2 as (p2 & Hp2 & ->).
      rewrite Hp1 in Hp2. now injection Hp2 as ->.
    + congruence.
  - unfold handleContainerEvent. rewrite Hrel, Htop, Hbot.
    destruct (truthy (relative props2)).
    + destruct (node dom) as [parent|]; simpl.
      * destruct (calculateStyle _ _ _ _ _); simpl; split; eauto.
      * split; intros [? ?]; discriminate.
    + simpl. destruct (calculateStyle _ _ _ _ _); simpl; split; eauto.
Qed.

Lemma isSticky_memoryless_witness :
  ∃ st1 dom1 st2 dom2,
    handleContainerEvent defaultProps defaultProps initialState Fixture.dom
      Fixture.sampleStuck = Ok (st1, dom1)
    ∧ handleContainerEvent defaultProps Fixture.propsNoCompensation
        {| isSticky := true; wasSticky := true; distanceFromTop := None;
           distanceFromBottom := 7%float; calculatedHeight := 3%float;
           style := {["position" := SVStr "fixed"]} |}
        Fixture.dom Fixture.sampleStuck = Ok (st2, dom2)
    ∧ isSticky st1 = isSticky st2.
Proof.
  destruct (handleContainerEvent defaultProps defaultProps initialState
              Fixture.dom Fixture.sampleStuck) as [[st1 dom1]|e] eqn:Hrun1;
    [|vm_compute in Hrun1; discriminate].
  match goal with
  | |- context [handleContainerEvent ?a ?b ?c ?d ?e] =>
      destruct (handleContainerEvent a b c d e) as [[st2 dom2]|e'] eqn:Hrun2;
        [|vm_compute in Hrun2; discriminate]
  end.
  exists st1, dom1, st2, dom2. repeat split.
  exact (proj1 (isSticky_memoryless defaultProps defaultProps
                  Fixture.propsNoCompensation _ _ Fixture.dom
                  Fixture.sampleStuck eq_refl eq_refl eq_refl)
           _ _ _ _ Hrun1 Hrun2).
Defined.

(** C4, counterexample.  With the default props (hardware acceleration on)
    and a sample that leaves the element in the flow, the published style is
    not the empty object: it holds the [transform] entry. *)
Lemma style_not_empty_when_not_sticky :
  ∃ st' dom',
    handleContainerEvent defaultProps defaultProps initialState Fixture.dom
      Fixture.sampleFlow = Ok (st', dom')
    ∧ truthy (disableHardwareAcceleration defaultProps) = false
    ∧ isSticky st' = false
    ∧ style st' = {["transform" := SVStr "translateZ(0)"]}
    ∧ style st' ≠ ∅.
Proof.
  eexists _, _. split; [vm_compute; reflexivity|].
  repeat split.
  intros Hempty.
  apply (f_equal (λ m : gmap string StyleVal, m !! "transform")) in Hempty.
  vm_compute in Hempty. discriminate.
Qed.

(** C4, amended.  With hardware acceleration not disabled, every published
    style holds [transform: translateZ(0)]: it is the only entry when
    [isSticky] is false, and it comes with [position], [top] and [width]
    (and [left] outside relative mode) when [isSticky] is true. *)
Theorem style_hardware_acceleration props0 props state dom sample st' dom' :
  handleContainerEvent props0 props state dom sample = Ok (st', dom') →
  truthy (disableHardwareAcceleration props) = false →
  style st' !! "transform" = Some (SVStr "translateZ(0)")
  ∧ (isSticky st' = false →
     style st' = {["transform" := SVStr "translateZ(0)"]})
  ∧ (isSticky st' = true →
     style st' !! "position" =
       Some (SVStr (if truthy (relative props0) then "absolute" else "fixed"))
     ∧ is_Some (style st' !! "top")
     ∧ is_Some (style st' !! "width")
     ∧ (truthy (relative props0) = false → is_Some (style st' !! "left"))).
Proof.
  intros Hrun Hhw.
  destruct (handleContainerEvent_Ok _ _ _ _ _ _ _ Hrun)
    as (d & sty & _ & Hsty & _ & _ & _ & _ & Hstyle & _).
  rewrite Hhw in Hstyle. simpl in Hstyle. rewrite Hstyle.
  split; [apply lookup_insert_eq|]. split.
  - intros Hns. rewrite Hns in Hsty. simpl in Hsty.
    injection Hsty as <-. reflexivity.
  - intros Hs. rewrite Hs in Hsty. unfold calculateStyle in Hsty.
    destruct (truthy (relative props0)).
    + destruct (node dom) as [p|]; simpl in Hsty; [|discriminate].
      destruct (le _ _); injection Hsty as <-;
        repeat split; try discriminate; simplify_map_eq; eauto.
    + injection Hsty as <-.
      repeat split; simplify_map_eq; eauto.
Qed.

Lemma style_hardware_acceleration_witness :
  ∃ st' dom',
    handleContainerEvent defaultProps defaultProps initialState Fixture.dom
      Fixture.sampleStuck = Ok (st', dom')
    ∧ isSticky st' = true
    ∧ style st' !! "transform" = Some (SVStr "translateZ(0)")
    ∧ style st' !! "position" = Some (SVStr "fixed").
Proof.
  destruct (handleContainerEvent defaultProps defaultProps initialState
              Fixture.dom Fixture.sampleStuck) as [[st' dom']|e] eqn:Hrun;
    [|vm_compute in Hrun; discriminate].
  exists st', dom'. split; [reflexivity|].
  assert (isSticky st' = true) as Hs.
  { vm_compute in Hrun. injection Hrun as <- _. reflexivity. }
  destruct (style_hardware_acceleration _ _ _ _ _ _ _ Hrun eq_refl)
    as (Ht & _ & Hpos).
  destruct (Hpos Hs) as (Hp & _).
  repeat split; assumption.
Defined.

(** The handler writes the placeholder's padding from [isSticky] and the
    measured height alone; [disableCompensation] is not read. *)
Lemma handleContainerEvent_padding props0 props state dom sample st' dom' :
  handleContainerEvent props0 props state dom sample = Ok (st', dom') →
  paddingBottom <$> placeholder dom' =
    (λ _, CssPx (if isSticky st' then calculatedHeight st' else 0%float))
    <$> placeholder dom.
Proof.
  intros Hrun.
  destruct (handleContainerEvent_Ok _ _ _ _ _ _ _ Hrun)
    as (_ & _ & _ & _ & _ & _ & _ & _ & _ & Hph).
  rewrite Hph. now destruct (placeholder dom).
Qed.

(** C2, the code at the failing input.  With [disableCompensation] set, a
    sample that makes the element sticky leaves the placeholder with 50px
    of bottom padding, the height of the content; the effect of lines
    250-254, run on the same state, writes ["0"]. *)
Theorem padding_written_despite_disableCompensation :
  ∃ st' dom' dom'',
    handleContainerEvent Fixture.propsNoCompensation Fixture.propsNoCompensation
      initialState Fixture.dom Fixture.sampleStuck = Ok (st', dom')
    ∧ truthy (disableCompensation Fixture.propsNoCompensation) = true
    ∧ isSticky st' = true
    ∧ paddingBottom <$> placeholder dom' = Some (CssPx 50%float)
    ∧ compensationEffect Fixture.propsNoCompensation st' dom' = Ok dom''
    ∧ paddingBottom <$> placeholder dom'' = Some (CssStr "0").
Proof.
  eexists _, _, _. split; [vm_compute; reflexivity|].
  repeat split.
Qed.

(** Outside relative mode the sample of an unmounted root, whose two
    distances are undefined, goes through the handler without throwing,
    whatever the DOM: the element is computed as not sticky, with an
    undefined [distanceFromTop], no positioning entry in the style and a
    placeholder padding of 0px where there is a placeholder. *)
Lemma unmounted_root_not_sticky props0 props state dom :
  truthy (relative props) = false →
  measure None =
    {| sample_distanceFromTop := None; sample_distanceFromBottom := None |}
  ∧ ∃ st' dom',
      handleContainerEvent props0 props state dom (measure None) = Ok (st', dom')
      ∧ isSticky st' = false
      ∧ distanceFromTop st' = None
      ∧ style st' !! "position" = None
      ∧ paddingBottom <$> placeholder dom' =
          (λ _, CssPx 0%float) <$> placeholder dom.
Proof.
  intros Hrel. split; [reflexivity|].
  unfold handleContainerEvent. rewrite Hrel. simpl.
  rewrite le_nan. simpl.
  eexists _, _. split; [reflexivity|]. simpl.
  repeat split.
  - destruct (truthy (disableHardwareAcceleration props)); reflexivity.
  - now destruct (placeholder dom).
Qed.

(** C8, the code at the failing input.  The container guards its null
    root and broadcasts two undefined distances.  A Sticky in relative
    mode, none of whose refs is attached any more, throws on that sample:
    it reads [scrollTop] of the null root.  The same Sticky outside
    relative mode returns, computes [isSticky = false] as before and writes
    nothing. *)
Theorem relative_handler_throws_on_unmounted_root :
  measure None =
    {| sample_distanceFromTop := None; sample_distanceFromBottom := None |}
  ∧ deliver (mount Fixture.propsRelative) Fixture.domDetached (measure None)
    = Throw (TypeError "Cannot read properties of null")
  ∧ ∃ inst',
      deliver (mount defaultProps) Fixture.domDetached (measure None)
        = Ok (inst', Fixture.domDetached)
      ∧ isSticky (inst_state inst') = isSticky (inst_state (mount defaultProps)).
Proof.
  split; [reflexivity|]. split; [reflexivity|].
  eexists. split; [vm_compute; reflexivity|reflexivity].
Qed.

(** ** The mounted component *)

(** A broadcast never replaces the subscribed listener, and the [wasSticky]
    it publishes is the [isSticky] of the state that listener captured. *)
Lemma deliver_Ok inst dom sample inst' dom' :
  deliver inst dom sample = Ok (inst', dom') →
  inst_listener inst' = inst_listener inst
  ∧ wasSticky (inst_state inst') = isSticky (cl_state (inst_listener inst)).
Proof.
  unfold deliver, callListener. intros Hrun.
  destruct (handleContainerEvent _ _ _ _ _) as [[st d]|e] eqn:Hh;
    simpl in Hrun; [|discriminate].
  injection Hrun as <- <-. simpl. split; [reflexivity|].
  destruct (handleContainerEvent_Ok _ _ _ _ _ _ _ Hh)
    as (_ & _ & _ & _ & _ & Hw & _).
  exact Hw.
Qed.

(** The listener subscribed at mount captured the initial state, so every
    cycle of a mounted Sticky publishes [wasSticky = false], whatever the
    cycle before it computed. *)
Lemma deliver_wasSticky_false props inst dom sample inst' dom' :
  inst_listener inst = inst_listener (mount props) →
  deliver inst dom sample = Ok (inst', dom') →
  wasSticky (inst_state inst') = false
  ∧ inst_listener inst' = inst_listener (mount props).
Proof.
  intros Hl Hrun.
  destruct (deliver_Ok _ _ _ _ _ Hrun) as [Hkeep Hw].
  rewrite Hw, Hkeep, Hl. split; reflexivity.
Qed.

(** C5, the code at the failing input.  Two consecutive broadcasts of a
    sample that makes the element sticky: cycle 1 computes
    [isSticky = true], and cycle 2 still publishes [wasSticky = false]. *)
Theorem wasSticky_stale_in_second_cycle :
  ∃ inst1 dom1 inst2 dom2,
    deliver (mount defaultProps) Fixture.dom Fixture.sampleStuck
      = Ok (inst1, dom1)
    ∧ deliver inst1 dom1 Fixture.sampleStuck = Ok (inst2, dom2)
    ∧ isSticky (inst_state inst1) = true
    ∧ isSticky (inst_state inst2) = true
    ∧ wasSticky (inst_state inst2) = false.
Proof.
  eexists _, _, _, _. split; [vm_compute; reflexivity|].
  split; [vm_compute; reflexivity|]. repeat split.
Qed.

(** ** The broadcaster *)

Section BroadcasterFacts.

Context {Handler : Type} `{EqDecision Handler}.
Variable react : Handler → GeometrySample → Container.Reaction Handler.

Abbreviation State := (Container.State Handler).
Abbreviation Event := (Container.Event Handler).

(** What a change of the registry leaves alone. *)
Lemma setSubscribers_fields updater (c : State) :
  Container.subscribers (Container.setSubscribers updater c)
    = updater (Container.subscribers c)
  ∧ Container.framePending (Container.setSubscribers updater c)
    = Container.framePending c
  ∧ Container.trace (Container.setSubscribers updater c) = Container.trace c
  ∧ length (Container.rafQueue (Container.setSubscribers updater c))
    ≤ length (Container.rafQueue c).
Proof.
  unfold Container.setSubscribers, Container.cancelPending. simpl.
  destruct (Container.rafHandle c) as [handle|]; [case_bool_decide|]; simpl;
    repeat split; auto using length_filter.
Qed.

Lemma applyCall_fields (c : State) call :
  Container.framePending (Container.applyCall c call)
    = Container.framePending c
  ∧ Container.trace (Container.applyCall c call) = Container.trace c
  ∧ length (Container.rafQueue (Container.applyCall c call))
    ≤ length (Container.rafQueue c).
Proof.
  destruct call as [h|h]; simpl.
  - destruct (setSubscribers_fields (Container.subscribeUpdater h) c)
      as (_ & ? & ? & ?); auto.
  - destruct (setSubscribers_fields (Container.unsubscribeUpdater h) c)
      as (_ & ? & ? & ?); auto.
Qed.

Lemma applyCalls_fields calls : ∀ c : State,
  Container.framePending (foldl Container.applyCall c calls)
    = Container.framePending c
  ∧ Container.trace (foldl Container.applyCall c calls) = Container.trace c
  ∧ length (Container.rafQueue (foldl Container.applyCall c calls))
    ≤ length (Container.rafQueue c).
Proof.
  induction calls as [|call calls IH]; intros c; simpl; [auto|].
  destruct (IH (Container.applyCall c call)) as (-> & -> & Hq).
  destruct (applyCall_fields c call) as (-> & -> & Hq').
  repeat split; auto. lia.
Qed.

(** One turn of the loop logs the handler it called, and nothing else. *)
Lemma invoke_fields sample (c : State) h :
  Container.framePending (Container.invoke react sample c h)
    = Container.framePending c
  ∧ Container.trace (Container.invoke react sample c h)
    = Container.trace c ++ [Container.ObsInvoke h sample]
  ∧ length (Container.rafQueue (Container.invoke react sample c h))
    ≤ length (Container.rafQueue c).
Proof.
  unfold Container.invoke.
  destruct (applyCalls_fields (Container.calls (react h sample))
              (Container.observe (Container.ObsInvoke h sample) c))
    as (-> & -> & Hq).
  auto.
Qed.

Lemma forEach_fields sample hs : ∀ c : State,
  Container.framePending (Container.forEach react sample c hs)
    = Container.framePending c
  ∧ Container.trace (Container.forEach react sample c hs)
    = Container.trace c
      ++ map (λ h, Container.ObsInvoke h sample)
           (Container.reached react sample hs)
  ∧ length (Container.rafQueue (Container.forEach react sample c hs))
    ≤ length (Container.rafQueue c).
Proof.
  induction hs as [|h hs IH]; intros c; simpl.
  - rewrite app_nil_r. auto.
  - destruct (invoke_fields sample c h) as (Hp & Ht & Hq).
    destruct (Container.throws (react h sample)).
    + rewrite Hp, Ht. auto.
    + destruct (IH (Container.invoke react sample c h)) as (-> & -> & Hq').
      rewrite Hp, Ht, <- app_assoc. repeat split; auto. lia.
Qed.

(** A frame callback lowers the flag, logs one broadcast and calls the
    handlers of the array it captured, in order and once per entry, until
    one of them throws, whatever the handlers do to the registry
    meanwhile. *)
Lemma frameCallback_fields root (c : State) s :
  Container.framePending (Container.frameCallback react root c s) = false
  ∧ Container.trace (Container.frameCallback react root c s)
    = Container.trace c
      ++ Container.ObsBroadcast (measure root)
         :: map (λ h, Container.ObsInvoke h (measure root))
              (Container.reached react (measure root)
                 (Container.sched_subscribers s))
  ∧ length (Container.rafQueue (Container.frameCallback react root c s))
    ≤ length (Container.rafQueue c).
Proof.
  unfold Container.frameCallback.
  match goal with
  | |- context [Container.forEach _ _ ?c0 ?hs] =>
      destruct (forEach_fields (measure root) hs c0) as (-> & -> & Hq)
  end.
  simpl in *. rewrite <- app_assoc. auto.
Qed.

(** When no handler throws, the loop reaches them all. *)
Lemma reached_all sample (hs : list Handler) :
  (∀ h, h ∈ hs → Container.throws (react h sample) = false) →
  Container.reached react sample hs = hs.
Proof.
  induction hs as [|h hs IH]; intros Hno; simpl; [reflexivity|].
  rewrite (Hno h) by apply list_elem_of_here.
  f_equal. apply IH. intros h' Hh'. apply Hno. now apply list_elem_of_further.
Qed.

Lemma invoked_app (t1 t2 : list (Container.Obs Handler)) :
  Container.invoked (t1 ++ t2) = Container.invoked t1 ++ Container.invoked t2.
Proof. apply omap_app. Qed.

Lemma invoked_map sample (hs : list Handler) :
  Container.invoked (map (λ h, Container.ObsInvoke h sample) hs) = hs.
Proof.
  unfold Container.invoked.
  induction hs as [|h hs IH]; simpl; [reflexivity|].
  f_equal. exact IH.
Qed.

Lemma frameCallback_invokes_snapshot root (c : State) s :
  Container.invoked (Container.trace (Container.frameCallback react root c s))
  = Container.invoked (Container.trace c)
    ++ Container.reached react (measure root) (Container.sched_subscribers s).
Proof.
  destruct (frameCallback_fields root c s) as (_ & -> & _).
  rewrite invoked_app. simpl. fold (Container.invoked (Handler:=Handler)).
  now rewrite invoked_map.
Qed.

(** *** Throttling *)

Lemma throttled_init : Container.throttled (Container.init (Handler:=Handler)).
Proof. split; simpl; auto. Qed.

Lemma frame_queue_empty root (q : list (Container.Scheduled Handler)) :
  ∀ c : State, Container.rafQueue c = [] →
    Container.rafQueue (foldl (Container.frameCallback react root) c q) = [].
Proof.
  induction q as [|s q IH]; intros c Hc; simpl; [exact Hc|].
  apply IH. destruct (frameCallback_fields root c s) as (_ & _ & Hq).
  rewrite Hc in Hq. simpl in Hq. apply nil_length_inv. lia.
Qed.

Lemma throttled_step (c : State) (e : Event) :
  Container.throttled c → Container.throttled (Container.step react c e).
Proof.
  intros [Hlen Hflag]. destruct e as [|root|h|h]; simpl.
  - unfold Container.notifySubscribers.
    destruct (Container.framePending c) eqn:Hp.
    + split; [exact Hlen|]. rewrite Hp. discriminate.
    + rewrite (Hflag eq_refl). split; simpl; [lia|discriminate].
  - assert (Container.rafQueue (Container.frame react root c) = []) as Hq
      by (apply frame_queue_empty; reflexivity).
    split; [rewrite Hq; simpl; lia|intros _; exact Hq].
  - destruct (setSubscribers_fields (Container.subscribeUpdater h) c)
      as (_ & Hp & _ & Hq).
    unfold Container.subscribe. split; [lia|]. rewrite Hp. intros Hf.
    rewrite (Hflag Hf) in Hq. simpl in Hq. apply nil_length_inv. lia.
  - destruct (setSubscribers_fields (Container.unsubscribeUpdater h) c)
      as (_ & Hp & _ & Hq).
    unfold Container.unsubscribe. split; [lia|]. rewrite Hp. intros Hf.
    rewrite (Hflag Hf) in Hq. simpl in Hq. apply nil_length_inv. lia.
Qed.

Lemma throttled_run (es : list Event) : ∀ c : State,
  Container.throttled c → Container.throttled (Container.run react c es).
Proof.
  induction es as [|e es IH]; intros c Hc; simpl; [exact Hc|].
  apply IH, throttled_step, Hc.
Qed.

(** While the flag is up, [notifySubscribers] does nothing. *)
Lemma notifySubscribers_pending (c : State) :
  Container.framePending c = true → Container.notifySubscribers c = c.
Proof. unfold Container.notifySubscribers. now intros ->. Qed.

(** With the flag down it hands one callback to [raf] and raises the
    flag. *)
Lemma notifySubscribers_idle (c : State) :
  Container.framePending c = false →
  Container.framePending (Container.notifySubscribers c) = true
  ∧ Container.rafCalls (Container.notifySubscribers c)
    = Container.rafCalls c + 1
  ∧ Container.rafQueue (Container.notifySubscribers c)
    = Container.rafQueue c
      ++ [{| Container.sched_handle := Container.rafNext c;
             Container.sched_subscribers := Container.subscribers c |}].
Proof.
  unfold Container.notifySubscribers, Container.rafCalls. intros ->. simpl.
  rewrite filter_app, length_app. auto.
Qed.

(** Between two frames the flag, once up, stays up, and no further callback
    is handed to [raf]. *)
Lemma step_between_frames (c : State) (e : Event) :
  Container.isFrame e = false →
  (Container.framePending c = true →
   Container.framePending (Container.step react c e) = true
   ∧ Container.rafCalls (Container.step react c e) = Container.rafCalls c)
  ∧ (Container.framePending c = false →
     (Container.framePending (Container.step react c e) = false
      ∧ Container.rafCalls (Container.step react c e) = Container.rafCalls c)
     ∨ (Container.framePending (Container.step react c e) = true
        ∧ Container.rafCalls (Container.step react c e)
          = Container.rafCalls c + 1)).
Proof.
  destruct e as [|root|h|h]; simpl; intros He; try discriminate.
  - split; intros Hp.
    + rewrite (notifySubscribers_pending c Hp). auto.
    + right. destruct (notifySubscribers_idle c Hp) as (? & ? & _). auto.
  - destruct (setSubscribers_fields (Container.subscribeUpdater h) c)
      as (_ & Hp & Ht & _).
    unfold Container.subscribe, Container.rafCalls. rewrite Hp, Ht.
    split; auto.
  - destruct (setSubscribers_fields (Container.unsubscribeUpdater h) c)
      as (_ & Hp & Ht & _).
    unfold Container.unsubscribe, Container.rafCalls. rewrite Hp, Ht.
    split; auto.
Qed.

Lemma run_between_frames (burst : list Event) : ∀ c : State,
  existsb Container.isFrame burst = false →
  (Container.framePending c = true →
   Container.rafCalls (Container.run react c burst) = Container.rafCalls c)
  ∧ Container.rafCalls (Container.run react c burst) ≤ Container.rafCalls c + 1.
Proof.
  induction burst as [|e burst IH]; intros c Hb; simpl in *; [split; auto; lia|].
  apply orb_false_iff in Hb as [He Hb].
  destruct (step_between_frames c e He) as [Hup Hdown].
  destruct (IH (Container.step react c e) Hb) as [IHup IHle].
  split.
  - intros Hp. destruct (Hup Hp) as [Hp' Hr]. rewrite (IHup Hp'). exact Hr.
  - destruct (Container.framePending c) eqn:Hp.
    + destruct (Hup eq_refl) as [Hp' Hr]. rewrite (IHup Hp'). lia.
    + destruct (Hdown eq_refl) as [[_ Hr]|[Hp' Hr]].
      * unfold Container.run in *. lia.
      * rewrite (IHup Hp'). lia.
Qed.

Lemma no_broadcast_in_invocations sample (hs : list Handler) :
  filter Container.isBroadcast (map (λ h, Container.ObsInvoke h sample) hs) = [].
Proof. induction hs as [|h hs IH]; simpl; [reflexivity|exact IH]. Qed.

Lemma frameCallback_broadcasts root (c : State) s :
  Container.broadcasts (Container.frameCallback react root c s)
  = Container.broadcasts c + 1.
Proof.
  unfold Container.broadcasts.
  destruct (frameCallback_fields root c s) as (_ & -> & _).
  rewrite filter_app, length_app. f_equal.
  rewrite filter_cons_True by exact I.
  now rewrite no_broadcast_in_invocations.
Qed.

(** A frame runs what is queued: under the single-slot discipline, nothing
    or one callback. *)
Lemma frame_throttled root (c : State) :
  Container.throttled c →
  (Container.rafQueue c = [] ∧
   Container.broadcasts (Container.frame react root c) = Container.broadcasts c)
  ∨ (Container.rafQueue c ≠ [] ∧
     Container.broadcasts (Container.frame react root c)
       = Container.broadcasts c + 1
     ∧ Container.framePending (Container.frame react root c) = false).
Proof.
  intros [Hlen _]. unfold Container.frame.
  destruct (Container.rafQueue c) as [|s [|s' q]] eqn:Hq; simpl in *.
  - left. auto.
  - right. split; [discriminate|].
    rewrite frameCallback_broadcasts.
    destruct (frameCallback_fields root
                {| Container.subscribers := Container.subscribers c;
                   Container.rafHandle := Container.rafHandle c;
                   Container.framePending := Container.framePending c;
                   Container.rafQueue := [];
                   Container.rafNext := Container.rafNext c;
                   Container.trace := Container.trace c |} s) as (-> & _).
    auto.
  - lia.
Qed.

(** C6.  In every state a container reaches: at most one frame callback is
    waiting; a run of events with no frame among them, however long, hands
    at most one callback to [raf]; the next frame makes at most one
    broadcast; [notifySubscribers] raises the pending flag when it
    schedules and does nothing while the flag is up; and the callback, when
    it fires, lowers the flag. *)
Theorem frame_throttle (es : list Event) :
  let c := Container.run react Container.init es in
  length (Container.rafQueue c) ≤ 1
  ∧ (∀ burst, existsb Container.isFrame burst = false →
       Container.rafCalls (Container.run react c burst)
       ≤ Container.rafCalls c + 1)
  ∧ (∀ root, Container.broadcasts (Container.frame react root c)
             ≤ Container.broadcasts c + 1)
  ∧ (Container.framePending c = false →
       Container.framePending (Container.notifySubscribers c) = true
       ∧ Container.rafCalls (Container.notifySubscribers c)
         = Container.rafCalls c + 1)
  ∧ (Container.framePending c = true → Container.notifySubscribers c = c)
  ∧ (∀ root, Container.rafQueue c ≠ [] →
       Container.framePending (Container.frame react root c) = false).
Proof.
  intros c.
  assert (Container.throttled c) as Hc by apply throttled_run, throttled_init.
  split; [apply Hc|].
  split; [intros burst Hb; apply run_between_frames, Hb|].
  split.
  { intros root. destruct (frame_throttled root c Hc) as [[_ ->]|(_ & -> & _)]; lia. }
  split.
  { intros Hp. destruct (notifySubscribers_idle c Hp) as (? & ? & _). auto. }
  split; [apply notifySubscribers_pending|].
  intros root Hq.
  destruct (frame_throttled root c Hc) as [[Hq' _]|(_ & _ & Hp)]; [contradiction|exact Hp].
Qed.

(** *** The registry *)

Lemma unsubscribe_subscribers (h : Handler) (c : State) :
  Container.subscribers (Container.unsubscribe h c)
  = filter (λ current, current ≠ h) (Container.subscribers c) ++ [h].
Proof.
  unfold Container.unsubscribe.
  destruct (setSubscribers_fields (Container.unsubscribeUpdater h) c) as (-> & _).
  reflexivity.
Qed.

(** After [unsubscribe h] the handler [h] is registered, whether it was
    before or not. *)
Lemma unsubscribe_still_registered (h : Handler) (c : State) :
  h ∈ Container.subscribers (Container.unsubscribe h c).
Proof. rewrite unsubscribe_subscribers. set_solver. Qed.

Lemma subscribe_subscribers (h : Handler) (c : State) :
  Container.subscribers (Container.subscribe h c)
  = Container.subscribers c ++ [h].
Proof.
  unfold Container.subscribe.
  destruct (setSubscribers_fields (Container.subscribeUpdater h) c) as (-> & _).
  reflexivity.
Qed.

(** The setup effect of a Sticky throws a [TypeError] when the context has
    no [subscribe], as with the default context value; inside a container
    it returns, and the registry has gained the handler, once, at its
    end. *)
Lemma subscribeEffect_setup (handler : Handler) (c : State) :
  (∀ (context : StickyContext State Handler),
     ctx_subscribe context = None →
     subscribeEffect context handler c
     = Throw (TypeError "Expected Sticky to be mounted within StickyContainer"))
  ∧ subscribeEffect noContext handler c
    = Throw (TypeError "Expected Sticky to be mounted within StickyContainer")
  ∧ (∃ c', subscribeEffect Container.context handler c = Ok c'
           ∧ Container.subscribers c' = Container.subscribers c ++ [handler]).
Proof.
  split; [|split; [reflexivity|]].
  - intros context Hnone. unfold subscribeEffect. now rewrite Hnone.
  - eexists. split; [reflexivity|]. apply subscribe_subscribers.
Qed.

End BroadcasterFacts.

(** ** The broadcaster on concrete runs *)

(** Fifty events before the frame comes: one callback handed to [raf], one
    broadcast. *)
Lemma frame_throttle_witness :
  Container.rafCalls
    (Container.run Fixture.reactNothing
       (Container.run Fixture.reactNothing Container.init
          [Container.EvSubscribe 1; Container.EvSubscribe 2])
       (replicate 50 Container.EvDom))
  ≤ Container.rafCalls
      (Container.run Fixture.reactNothing Container.init
         [Container.EvSubscribe 1; Container.EvSubscribe 2]) + 1
  ∧ Container.broadcasts
      (Container.run Fixture.reactNothing Container.init
         ([Container.EvSubscribe 1; Container.EvSubscribe 2]
          ++ replicate 50 Container.EvDom
          ++ [Container.EvFrame (Some Fixture.rootRect)])) = 1.
Proof.
  split; [|vm_compute; reflexivity].
  apply (proj1 (proj2 (frame_throttle Fixture.reactNothing
                         [Container.EvSubscribe 1; Container.EvSubscribe 2]))
           (replicate 50 Container.EvDom)).
  reflexivity.
Defined.

(** C9, the code at the failing input.  Without a context the setup effect
    throws.  Inside a container it registers the listener, once; but after
    the cleanup has run the listener is still registered, and the next
    broadcast calls it. *)
Theorem unmounted_sticky_still_subscribed :
  subscribeEffect noContext 1 (Container.init (Handler:=nat))
  = Throw (TypeError "Expected Sticky to be mounted within StickyContainer")
  ∧ ∃ c1 c2,
      subscribeEffect Container.context 1 Container.init = Ok c1
      ∧ Container.subscribers c1 = [1]
      ∧ subscribeCleanup Container.context 1 c1 = Ok c2
      ∧ Container.subscribers c2 = [1]
      ∧ Container.invoked
          (Container.trace
             (Container.run Fixture.reactNothing c2
                [Container.EvDom; Container.EvFrame (Some Fixture.rootRect)]))
        = [1].
Proof.
  split; [reflexivity|].
  eexists _, _. repeat split.
Qed.

(** C3, the code at the failing input.  From the registry [1; 2; 1],
    [unsubscribe 1] leaves [2; 1]: handler 1 is still registered; and
    [unsubscribe 3], of a handler that is absent, leaves [1; 2; 1; 3]. *)
Theorem unsubscribe_appends_handler :
  Container.subscribers
    (Container.run Fixture.reactNothing Container.init
       [Container.EvSubscribe 1; Container.EvSubscribe 2;
        Container.EvSubscribe 1]) = [1; 2; 1]
  ∧ Container.subscribers
      (Container.run Fixture.reactNothing Container.init
         [Container.EvSubscribe 1; Container.EvSubscribe 2;
          Container.EvSubscribe 1; Container.EvUnsubscribe 1]) = [2; 1]
  ∧ Container.subscribers
      (Container.run Fixture.reactNothing Container.init
         [Container.EvSubscribe 1; Container.EvSubscribe 2;
          Container.EvSubscribe 1; Container.EvUnsubscribe 3]) = [1; 2; 1; 3].
Proof. repeat split. Qed.

(** C7, the code at the failing input.  Handlers 1 and 2 are registered and
    handler 1 unsubscribes handler 2 while it runs.  The broadcast in
    progress still reaches both, once each; but handler 2 is back in the
    registry afterwards, and the next broadcast calls it again. *)
Theorem unsubscribed_handler_in_next_broadcast :
  Container.invoked
    (Container.trace
       (Container.run Fixture.reactDrop2 Container.init
          [Container.EvSubscribe 1; Container.EvSubscribe 2;
           Container.EvDom; Container.EvFrame (Some Fixture.rootRect)]))
  = [1; 2]
  ∧ Container.subscribers
      (Container.run Fixture.reactDrop2 Container.init
         [Container.EvSubscribe 1; Container.EvSubscribe 2;
          Container.EvDom; Container.EvFrame (Some Fixture.rootRect)])
    = [1; 2]
  ∧ Container.invoked
      (Container.trace
         (Container.run Fixture.reactDrop2 Container.init
            [Container.EvSubscribe 1; Container.EvSubscribe 2;
             Container.EvDom; Container.EvFrame (Some Fixture.rootRect);
             Container.EvDom; Container.EvFrame (Some Fixture.rootRect)]))
    = [1; 2; 1; 2].
Proof. repeat split. Qed.

(** ** More on the broadcaster *)

Section BroadcasterMore.

Context {Handler : Type} `{EqDecision Handler}.
Variable react : Handler → GeometrySample → Container.Reaction Handler.

Abbreviation State := (Container.State Handler).
Abbreviation Event := (Container.Event Handler).

(** *** What the registry operations keep *)

Lemma cancelPending_keeps (c : State) :
  Container.subscribers (Container.cancelPending c) = Container.subscribers c
  ∧ Container.rafNext (Container.cancelPending c) = Container.rafNext c
  ∧ Container.framePending (Container.cancelPending c)
    = Container.framePending c
  ∧ Container.trace (Container.cancelPending c) = Container.trace c.
Proof.
  unfold Container.cancelPending.
  destruct (Container.rafHandle c) as [handle|]; [case_bool_decide|]; auto.
Qed.

Lemma setSubscribers_rafNext updater (c : State) :
  Container.rafNext (Container.setSubscribers updater c) = Container.rafNext c.
Proof.
  unfold Container.setSubscribers.
  now destruct (cancelPending_keeps
    {| Container.subscribers := updater (Container.subscribers c);
       Container.rafHandle := Container.rafHandle c;
       Container.framePending := Container.framePending c;
       Container.rafQueue := Container.rafQueue c;
       Container.rafNext := Container.rafNext c;
       Container.trace := Container.trace c |}) as (_ & -> & _).
Qed.

(** Both updaters keep every handler that was registered. *)
Lemma subscribeUpdater_keeps (h x : Handler) (prev : list Handler) :
  x ∈ prev → x ∈ Container.subscribeUpdater h prev.
Proof. unfold Container.subscribeUpdater. set_solver. Qed.

Lemma unsubscribeUpdater_keeps (h x : Handler) (prev : list Handler) :
  x ∈ prev → x ∈ Container.unsubscribeUpdater h prev.
Proof.
  unfold Container.unsubscribeUpdater. intros Hx.
  destruct (decide (x = h)) as [->|Hne]; [set_solver|].
  apply elem_of_app. left. apply list_elem_of_filter. auto.
Qed.

Lemma applyCall_keeps (c : State) call :
  (∀ x, x ∈ Container.subscribers c →
        x ∈ Container.subscribers (Container.applyCall c call))
  ∧ Container.rafNext (Container.applyCall c call) = Container.rafNext c.
Proof.
  destruct call as [h|h]; simpl;
    unfold Container.subscribe, Container.unsubscribe;
    (split; [|apply setSubscribers_rafNext]); intros x Hx.
  - destruct (setSubscribers_fields (Container.subscribeUpdater h) c) as (-> & _).
    now apply subscribeUpdater_keeps.
  - destruct (setSubscribers_fields (Container.unsubscribeUpdater h) c) as (-> & _).
    now apply unsubscribeUpdater_keeps.
Qed.

Lemma applyCalls_keeps calls : ∀ c : State,
  (∀ x, x ∈ Container.subscribers c →
        x ∈ Container.subscribers (foldl Container.applyCall c calls))
  ∧ Container.rafNext (foldl Container.applyCall c calls) = Container.rafNext c.
Proof.
  induction calls as [|call calls IH]; intros c; simpl; [auto|].
  destruct (IH (Container.applyCall c call)) as [Hin ->].
  destruct (applyCall_keeps c call) as [Hin' ->]. auto.
Qed.

Lemma invoke_keeps sample h (c : State) :
  (∀ x, x ∈ Container.subscribers c →
        x ∈ Container.subscribers (Container.invoke react sample c h))
  ∧ Container.rafNext (Container.invoke react sample c h)
    = Container.rafNext c.
Proof.
  unfold Container.invoke.
  destruct (applyCalls_keeps (Container.calls (react h sample))
              (Container.observe (Container.ObsInvoke h sample) c))
    as [Hin ->].
  auto.
Qed.

Lemma forEach_keeps sample hs : ∀ c : State,
  (∀ x, x ∈ Container.subscribers c →
        x ∈ Container.subscribers (Container.forEach react sample c hs))
  ∧ Container.rafNext (Container.forEach react sample c hs)
    = Container.rafNext c.
Proof.
  induction hs as [|h hs IH]; intros c; simpl; [auto|].
  destruct (invoke_keeps sample h c) as [Hin Hn].
  destruct (Container.throws (react h sample)); [auto|].
  destruct (IH (Container.invoke react sample c h)) as [Hin' ->].
  rewrite Hn. auto.
Qed.

Lemma frameCallback_keeps root s (c : State) :
  (∀ x, x ∈ Container.subscribers c →
        x ∈ Container.subscribers (Container.frameCallback react root c s))
  ∧ Container.rafNext (Container.frameCallback react root c s)
    = Container.rafNext c.
Proof.
  unfold Container.frameCallback.
  match goal with
  | |- context [Container.forEach _ _ ?c0 ?hs] =>
      destruct (forEach_keeps (measure root) hs c0) as [Hin ->]
  end.
  auto.
Qed.

Lemma frame_keeps root (c : State) :
  (∀ x, x ∈ Container.subscribers c →
        x ∈ Container.subscribers (Container.frame react root c))
  ∧ Container.rafNext (Container.frame react root c) = Container.rafNext c.
Proof.
  unfold Container.frame.
  assert (∀ q (c0 : State),
    (∀ x, x ∈ Container.subscribers c0 →
          x ∈ Container.subscribers
                (foldl (Container.frameCallback react root) c0 q))
    ∧ Container.rafNext (foldl (Container.frameCallback react root) c0 q)
      = Container.rafNext c0) as Hq.
  { induction q as [|s q IH]; intros c0; simpl; [auto|].
    destruct (IH (Container.frameCallback react root c0 s)) as [Hin ->].
    destruct (frameCallback_keeps root s c0) as [Hin' ->]. auto. }
  match goal with
  | |- context [foldl _ ?c0 ?q] => exact (Hq q c0)
  end.
Qed.

(** X4.  No sequence of events removes a handler from the registry: one
    that is registered stays registered through every DOM event, frame,
    [subscribe] and [unsubscribe], whatever the handlers do while they
    run. *)
Theorem registered_forever (es : list Event) : ∀ (c : State) (x : Handler),
  x ∈ Container.subscribers c →
  x ∈ Container.subscribers (Container.run react c es).
Proof.
  induction es as [|e es IH]; intros c x Hx; simpl; [exact Hx|].
  apply IH. destruct e as [|root|h|h]; simpl.
  - unfold Container.notifySubscribers.
    now destruct (Container.framePending c).
  - now apply (proj1 (frame_keeps root c)).
  - now apply (proj1 (applyCall_keeps c (Container.CallSubscribe h))).
  - now apply (proj1 (applyCall_keeps c (Container.CallUnsubscribe h))).
Qed.


(** *** Reachable states *)

Lemma wellFormed_init : Container.wellFormed (Container.init (Handler:=Handler)).
Proof. split; simpl; auto. Qed.

(** The cleanup of the effect leaves no callback of a well-formed container
    waiting. *)
Lemma cancelPending_queue (c : State) :
  Container.wellFormed c →
  Container.rafQueue (Container.cancelPending c) = [].
Proof.
  intros [_ [Hq|(s & Hq & Hh & Hpos & _)]]; unfold Container.cancelPending.
  - destruct (Container.rafHandle c) as [handle|]; [case_bool_decide|];
      simpl; rewrite ?Hq; reflexivity.
  - rewrite Hh. case_bool_decide; [lia|]. simpl. rewrite Hq.
    rewrite filter_cons_False by (intros Hn; now apply Hn). reflexivity.
Qed.

Lemma setSubscribers_queue updater (c : State) :
  Container.wellFormed c →
  Container.rafQueue (Container.setSubscribers updater c) = [].
Proof.
  intros [Hn Hq]. unfold Container.setSubscribers.
  apply cancelPending_queue. split; simpl; auto.
Qed.

Lemma wellFormed_step (c : State) (e : Event) :
  Container.wellFormed c → Container.wellFormed (Container.step react c e).
Proof.
  intros Hwf. pose proof Hwf as [Hn Hq]. destruct e as [|root|h|h]; simpl.
  - unfold Container.notifySubscribers.
    destruct (Container.framePending c) eqn:Hp; [exact Hwf|].
    split; simpl; [lia|]. right.
    destruct Hq as [->|(s & _ & _ & _ & Hp')]; [|congruence].
    eexists. split; [reflexivity|]. simpl. auto.
  - split.
    + now destruct (frame_keeps root c) as [_ ->].
    + left. apply frame_queue_empty. reflexivity.
  - unfold Container.subscribe. split.
    + now rewrite setSubscribers_rafNext.
    + left. now apply setSubscribers_queue.
  - unfold Container.unsubscribe. split.
    + now rewrite setSubscribers_rafNext.
    + left. now apply setSubscribers_queue.
Qed.

Lemma wellFormed_run (es : list Event) : ∀ c : State,
  Container.wellFormed c → Container.wellFormed (Container.run react c es).
Proof.
  induction es as [|e es IH]; intros c Hc; simpl; [exact Hc|].
  apply IH, wellFormed_step, Hc.
Qed.

Lemma wellFormed_idle (c : State) :
  Container.wellFormed c → Container.framePending c = false →
  Container.rafQueue c = [].
Proof. intros [_ [Hq|(s & _ & _ & _ & Hp)]] Hf; [exact Hq|congruence]. Qed.

(** X1.  In a reachable state with no frame pending, a DOM event followed
    by a frame hands one callback to [raf], makes one broadcast, and calls
    the handlers of the registry as it was when the event arrived, in
    registration order and once per registration, each with the sample
    measured when the frame came, until one of them throws: the handlers
    registered after that one are not called.  When none throws, all are
    called. *)
Theorem event_then_frame (es : list Event) (root : option DOMRect) :
  let c := Container.run react Container.init es in
  Container.framePending c = false →
  Container.trace
    (Container.run react c [Container.EvDom; Container.EvFrame root])
  = Container.trace c
    ++ Container.ObsRaf (Container.rafNext c)
       :: Container.ObsBroadcast (measure root)
       :: map (λ h, Container.ObsInvoke h (measure root))
            (Container.reached react (measure root) (Container.subscribers c))
  ∧ ((∀ h, h ∈ Container.subscribers c →
           Container.throws (react h (measure root)) = false) →
     Container.invoked
       (Container.trace
          (Container.run react c [Container.EvDom; Container.EvFrame root]))
     = Container.invoked (Container.trace c) ++ Container.subscribers c).
Proof.
  intros c Hp.
  assert (Container.wellFormed c) as Hwf
    by apply wellFormed_run, wellFormed_init.
  pose proof (wellFormed_idle c Hwf Hp) as Hq.
  assert (Container.trace
            (Container.run react c [Container.EvDom; Container.EvFrame root])
          = Container.trace c
            ++ Container.ObsRaf (Container.rafNext c)
               :: Container.ObsBroadcast (measure root)
               :: map (λ h, Container.ObsInvoke h (measure root))
                    (Container.reached react (measure root)
                       (Container.subscribers c))) as Htrace.
  { simpl. unfold Container.notifySubscribers, Container.frame.
    rewrite Hp, Hq. simpl.
    match goal with
    | |- context [Container.frameCallback react root ?c0 ?s] =>
        destruct (frameCallback_fields react root c0 s) as (_ & -> & _)
    end.
    simpl. rewrite <- app_assoc. reflexivity. }
  split; [exact Htrace|].
  intros Hno. rewrite Htrace, invoked_app. simpl.
  fold (Container.invoked (Handler:=Handler)). rewrite invoked_map.
  now rewrite (reached_all react _ _ Hno).
Qed.

(** *** A registry change while a frame is pending *)

Lemma stalled_step (c : State) (e : Event) :
  Container.wellFormed c → Container.stalled c →
  Container.stalled (Container.step react c e)
  ∧ Container.trace (Container.step react c e) = Container.trace c.
Proof.
  intros Hwf [Hp Hq]. destruct e as [|root|h|h]; simpl.
  - rewrite (notifySubscribers_pending c Hp). repeat split; auto.
  - unfold Container.frame. rewrite Hq. simpl. repeat split; auto.
  - destruct (setSubscribers_fields (Container.subscribeUpdater h) c)
      as (_ & Hp' & Ht & _).
    unfold Container.subscribe. repeat split; auto; [congruence|].
    now apply setSubscribers_queue.
  - destruct (setSubscribers_fields (Container.unsubscribeUpdater h) c)
      as (_ & Hp' & Ht & _).
    unfold Container.unsubscribe. repeat split; auto; [congruence|].
    now apply setSubscribers_queue.
Qed.

Lemma stalled_run (es : list Event) : ∀ c : State,
  Container.wellFormed c → Container.stalled c →
  Container.trace (Container.run react c es) = Container.trace c.
Proof.
  induction es as [|e es IH]; intros c Hwf Hs; simpl; [reflexivity|].
  destruct (stalled_step c e Hwf Hs) as [Hs' <-].
  apply IH; [apply wellFormed_step, Hwf|exact Hs'].
Qed.

Lemma registry_change_stalls (c : State) (e : Event) :
  Container.wellFormed c → Container.framePending c = true →
  (∃ h, e = Container.EvSubscribe h ∨ e = Container.EvUnsubscribe h) →
  Container.stalled (Container.step react c e)
  ∧ Container.trace (Container.step react c e) = Container.trace c.
Proof.
  intros Hwf Hp (h & [->| ->]); simpl.
  - destruct (setSubscribers_fields (Container.subscribeUpdater h) c)
      as (_ & Hp' & Ht & _).
    unfold Container.subscribe. repeat split; auto; [congruence|].
    now apply setSubscribers_queue.
  - destruct (setSubscribers_fields (Container.unsubscribeUpdater h) c)
      as (_ & Hp' & Ht & _).
    unfold Container.unsubscribe. repeat split; auto; [congruence|].
    now apply setSubscribers_queue.
Qed.

(** X2.  When [subscribe] or [unsubscribe] is called between a DOM event
    and its frame, the pending callback is cancelled and the flag stays
    up: whatever events and frames follow, the container hands nothing more
    to [raf], makes no broadcast and calls no handler. *)
Theorem registry_change_while_pending (es rest : list Event) (e : Event) :
  let c := Container.run react Container.init es in
  Container.framePending c = false →
  (∃ h, e = Container.EvSubscribe h ∨ e = Container.EvUnsubscribe h) →
  Container.trace (Container.run react c (Container.EvDom :: e :: rest))
  = Container.trace c ++ [Container.ObsRaf (Container.rafNext c)].
Proof.
  intros c Hp He.
  assert (Container.wellFormed c) as Hwf
    by apply wellFormed_run, wellFormed_init.
  simpl.
  set (c1 := Container.notifySubscribers c).
  assert (Container.wellFormed c1) as Hwf1
    by apply (wellFormed_step c Container.EvDom Hwf).
  assert (Container.framePending c1 = true) as Hp1
    by apply (notifySubscribers_idle c Hp).
  destruct (registry_change_stalls c1 e Hwf1 Hp1 He) as [Hs Ht].
  fold (Container.run react (Container.step react c1 e) rest).
  rewrite stalled_run; [|apply wellFormed_step, Hwf1|exact Hs].
  rewrite Ht. subst c1. unfold Container.notifySubscribers. rewrite Hp.
  reflexivity.
Qed.

(** X3.  The cleanup of the container's effect cancels the callback that is
    waiting: a frame that comes after it makes no broadcast and calls no
    handler. *)
Theorem no_broadcast_after_cleanup (es : list Event) (root : option DOMRect) :
  let c := Container.run react Container.init es in
  Container.rafQueue (Container.cancelPending c) = []
  ∧ Container.trace (Container.frame react root (Container.cancelPending c))
    = Container.trace c.
Proof.
  intros c.
  assert (Container.wellFormed c) as Hwf
    by apply wellFormed_run, wellFormed_init.
  pose proof (cancelPending_queue c Hwf) as Hq. split; [exact Hq|].
  unfold Container.frame. rewrite Hq. simpl.
  now destruct (cancelPending_keeps c) as (_ & _ & _ & ->).
Qed.

End BroadcasterMore.

Lemma event_then_frame_witness :
  Container.invoked
    (Container.trace
       (Container.run Fixture.reactThrow2
          (Container.run Fixture.reactThrow2 Container.init
             [Container.EvSubscribe 1; Container.EvSubscribe 2;
              Container.EvSubscribe 3])
          [Container.EvDom; Container.EvFrame (Some Fixture.rootRect)]))
  = [1; 2]
  ∧ Container.invoked
      (Container.trace
         (Container.run Fixture.reactNothing
            (Container.run Fixture.reactNothing Container.init
               [Container.EvSubscribe 1; Container.EvSubscribe 2;
                Container.EvSubscribe 1])
            [Container.EvDom; Container.EvFrame (Some Fixture.rootRect)]))
    = [1; 2; 1].
Proof.
  split.
  - rewrite (proj1 (event_then_frame Fixture.reactThrow2
                      [Container.EvSubscribe 1; Container.EvSubscribe 2;
                       Container.EvSubscribe 3]
                      (Some Fixture.rootRect) eq_refl)).
    reflexivity.
  - rewrite (proj2 (event_then_frame Fixture.reactNothing
                      [Container.EvSubscribe 1; Container.EvSubscribe 2;
                       Container.EvSubscribe 1]
                      (Some Fixture.rootRect) eq_refl)
               (λ _ _, eq_refl)).
    reflexivity.
Defined.

Lemma registry_change_while_pending_witness :
  Container.trace
    (Container.run Fixture.reactNothing
       (Container.run Fixture.reactNothing Container.init
          [Container.EvSubscribe 1])
       [Container.EvDom; Container.EvSubscribe 2;
        Container.EvFrame (Some Fixture.rootRect); Container.EvDom;
        Container.EvFrame (Some Fixture.rootRect)])
  = [Container.ObsRaf 1].
Proof.
  exact (registry_change_while_pending Fixture.reactNothing
           [Container.EvSubscribe 1]
           [Container.EvFrame (Some Fixture.rootRect); Container.EvDom;
            Container.EvFrame (Some Fixture.rootRect)]
           (Container.EvSubscribe 2) eq_refl
           (ex_intro _ 2 (or_introl eq_refl))).
Defined.

Lemma registered_forever_witness :
  7 ∈ Container.subscribers
        (Container.run Fixture.reactDrop2
           (Container.run Fixture.reactDrop2 Container.init
              [Container.EvSubscribe 7])
           [Container.EvUnsubscribe 7; Container.EvDom;
            Container.EvFrame None]).
Proof.
  apply (registered_forever Fixture.reactDrop2).
  vm_compute. apply list_elem_of_here.
Defined.

(** ** More on the recomputation handler *)

(** X6.  The handler throws exactly when the container root is not mounted
    and either the handler is in relative mode, or [calculateStyle] is and
    the threshold test makes the element sticky; what it throws is the
    [TypeError] of reading a property of [null]. *)
Theorem handleContainerEvent_throws props0 props state dom sample :
  ((∃ e, handleContainerEvent props0 props state dom sample = Throw e)
   ↔ node dom = None
     ∧ (truthy (relative props) = true
        ∨ (truthy (relative props0) = true
           ∧ le (ToNumber (sample_distanceFromTop sample))
                (neg (nullish (topOffset props) 0%float))
             && gt (ToNumber (sample_distanceFromBottom sample))
                   (neg (nullish (bottomOffset props) 0%float)) = true)))
  ∧ (∀ e, handleContainerEvent props0 props state dom sample = Throw e →
          e = TypeError "Cannot read properties of null").
Proof.
  unfold handleContainerEvent, calculateStyle.
  destruct (truthy (relative props)) eqn:Hrel.
  - destruct (node dom) as [parent|] eqn:Hnode; simpl.
    + split.
      * split; [|intros [? _]; discriminate].
        intros [e He]. revert He.
        repeat (match goal with |- context [if ?b then _ else _] => destruct b end;
                simpl); discriminate.
      * intros e.
        repeat (match goal with |- context [if ?b then _ else _] => destruct b end;
                simpl); discriminate.
    + split; [split; eauto|]. intros e He. now injection He as <-.
  - simpl.
    destruct (le _ _ && gt _ _) eqn:Htest; simpl.
    + destruct (truthy (relative props0)) eqn:Hrel0.
      * destruct (node dom) as [parent|] eqn:Hnode; simpl.
        -- split.
           ++ split; [|intros [? _]; discriminate].
              intros [e He]. revert He.
              repeat (match goal with |- context [if ?b then _ else _] => destruct b end;
                      simpl); discriminate.
           ++ intros e.
              repeat (match goal with |- context [if ?b then _ else _] => destruct b end;
                      simpl); discriminate.
        -- split; [split; eauto|]. intros e He. now injection He as <-.
      * simpl. split; [|intros e; destruct (negb _); discriminate].
        split; [intros [e He]; revert He; destruct (negb _); discriminate|].
        intros [_ [?|[? _]]]; discriminate.
    + split; [|intros e; destruct (negb _); discriminate].
      split; [intros [e He]; revert He; destruct (negb _); discriminate|].
      intros [_ [?|[_ ?]]]; discriminate.
Qed.

Lemma handleContainerEvent_throws_witness :
  handleContainerEvent Fixture.propsRelative Fixture.propsRelative initialState
    Fixture.domUnmounted Fixture.sampleStuck
  = Throw (TypeError "Cannot read properties of null").
Proof.
  destruct (proj2 (proj1 (handleContainerEvent_throws Fixture.propsRelative
                            Fixture.propsRelative initialState
                            Fixture.domUnmounted Fixture.sampleStuck))
              (conj eq_refl (or_introl eq_refl))) as [e He].
  rewrite He. f_equal.
  exact (proj2 (handleContainerEvent_throws _ _ _ _ _) e He).
Defined.

(** X7.  In relative mode the sample's [distanceFromTop] is not used: two
    samples with the same [distanceFromBottom] give the same result, the
    published state and the DOM alike. *)
Theorem relative_ignores_sample_top props0 props state dom sample1 sample2 :
  truthy (relative props) = true →
  sample_distanceFromBottom sample1 = sample_distanceFromBottom sample2 →
  handleContainerEvent props0 props state dom sample1
  = handleContainerEvent props0 props state dom sample2.
Proof.
  intros Hrel Hbot. unfold handleContainerEvent. rewrite Hrel, Hbot.
  reflexivity.
Qed.

Lemma relative_ignores_sample_top_witness :
  handleContainerEvent Fixture.propsRelative Fixture.propsRelative initialState
    Fixture.dom (measure (Some Fixture.rootRect))
  = handleContainerEvent Fixture.propsRelative Fixture.propsRelative
      initialState Fixture.dom
      (measure (Some (Fixture.rect 400 100 0 300 110))).
Proof.
  exact (relative_ignores_sample_top Fixture.propsRelative
           Fixture.propsRelative initialState Fixture.dom _ _
           eq_refl eq_refl).
Defined.

(** The DOM a handler run returns is the one it was given, but for the
    padding of the placeholder. *)
Lemma handleContainerEvent_dom props0 props state dom sample st' dom' :
  handleContainerEvent props0 props state dom sample = Ok (st', dom') →
  dom' =
    {| node := node dom;
       placeholder :=
         setPaddingBottom
           (CssPx (if isSticky st' then calculatedHeight st' else 0%float))
         <$> placeholder dom;
       content := content dom |}.
Proof.
  unfold handleContainerEvent.
  destruct (truthy (relative props)); [destruct (node dom); simpl|simpl];
    try discriminate;
    (destruct (calculateStyle _ _ _ _ _); simpl; [|discriminate]);
    intros Hrun; injection Hrun as <- <-; reflexivity.
Qed.

(** The handler reads the placeholder's rectangle and offset, never its
    padding. *)
Lemma handleContainerEvent_padding_blind props0 props state dom sample v :
  handleContainerEvent props0 props state
    {| node := node dom; placeholder := setPaddingBottom v <$> placeholder dom;
       content := content dom |} sample
  = handleContainerEvent props0 props state dom sample.
Proof.
  unfold handleContainerEvent, calculateStyle. simpl.
  destruct (placeholder dom) as [p|]; reflexivity.
Qed.

Lemma handleContainerEvent_again props0 props state dom sample st' dom' :
  handleContainerEvent props0 props state dom sample = Ok (st', dom') →
  handleContainerEvent props0 props state dom' sample = Ok (st', dom').
Proof.
  intros Hrun. rewrite (handleContainerEvent_dom _ _ _ _ _ _ _ Hrun) at 1.
  rewrite handleContainerEvent_padding_blind. exact Hrun.
Qed.

(** X8.  A mounted Sticky that receives the same sample again, with the
    DOM as its previous run left it, publishes the same state again and
    leaves the DOM as it is. *)
Theorem deliver_idempotent inst dom sample inst' dom' :
  deliver inst dom sample = Ok (inst', dom') →
  deliver inst' dom' sample = Ok (inst', dom').
Proof.
  unfold deliver, callListener. intros Hrun.
  destruct (handleContainerEvent _ _ _ dom sample) as [[st d]|e] eqn:Hh;
    simpl in Hrun; [|discriminate].
  injection Hrun as <- <-. simpl.
  now rewrite (handleContainerEvent_again _ _ _ _ _ _ _ Hh).
Qed.

Lemma deliver_idempotent_witness :
  ∃ inst' dom',
    deliver (mount defaultProps) Fixture.dom Fixture.sampleStuck
      = Ok (inst', dom')
    ∧ deliver inst' dom' Fixture.sampleStuck = Ok (inst', dom').
Proof.
  destruct (deliver (mount defaultProps) Fixture.dom Fixture.sampleStuck)
    as [[inst' dom']|e] eqn:Hrun; [|vm_compute in Hrun; discriminate].
  exists inst', dom'. split; [reflexivity|].
  exact (deliver_idempotent _ _ _ _ _ Hrun).
Defined.

(** X9.  With compensation not disabled and the placeholder mounted, the
    effect of lines 250-254 run on the state and DOM a handler run produced
    returns that DOM unchanged: both write the same padding. *)
Theorem compensationEffect_after_handler props0 props state dom sample st' dom' :
  handleContainerEvent props0 props state dom sample = Ok (st', dom') →
  truthy (disableCompensation props) = false →
  is_Some (placeholder dom) →
  compensationEffect props st' dom' = Ok dom'.
Proof.
  intros Hrun Hcomp [p Hp].
  destruct (handleContainerEvent_Ok _ _ _ _ _ _ _ Hrun)
    as (_ & _ & _ & _ & _ & _ & _ & _ & _ & Hph).
  rewrite (handleContainerEvent_dom _ _ _ _ _ _ _ Hrun) in Hph |- *.
  unfold compensationEffect. simpl in *. rewrite Hp, Hcomp. reflexivity.
Qed.

Lemma compensationEffect_after_handler_witness :
  ∃ st' dom',
    handleContainerEvent defaultProps defaultProps initialState Fixture.dom
      Fixture.sampleStuck = Ok (st', dom')
    ∧ compensationEffect defaultProps st' dom' = Ok dom'.
Proof.
  destruct (handleContainerEvent defaultProps defaultProps initialState
              Fixture.dom Fixture.sampleStuck) as [[st' dom']|e] eqn:Hrun;
    [|vm_compute in Hrun; discriminate].
  exists st', dom'. split; [reflexivity|].
  apply (compensationEffect_after_handler _ _ _ _ _ _ _ Hrun eq_refl).
  vm_compute. eauto.
Defined.

(** ** [calculateStyle] *)

(** X10.  Outside relative mode the style of a sticky element is exactly
    [position: fixed] with [top], [left] and [width]: [left] and [width]
    are the placeholder's (undefined without one), and [top] is 0 while
    [distanceFromBottom - bottomOffset - calculatedHeight] is above 0 and
    that difference otherwise, so it is never above 0. *)
Theorem calculateStyle_fixed props dom dfb height :
  truthy (relative props) = false →
  let bottomDifference :=
    sub (sub (ToNumber dfb) (nullish (bottomOffset props) 0%float)) height in
  ∃ top,
    calculateStyle props dom true dfb height
    = Ok (<["width" := SVOfValue (rect_width <$> (ph_rect <$> placeholder dom))]>
          (<["left" := SVOfValue (rect_left <$> (ph_rect <$> placeholder dom))]>
           (<["top" := SVNum top]>
            (<["position" := SVStr "fixed"]> ∅))))
    ∧ JS.gt top 0%float = false
    ∧ (JS.gt bottomDifference 0%float = true → top = 0%float)
    ∧ (JS.gt bottomDifference 0%float = false → top = bottomDifference).
Proof.
  intros Hrel bd. unfold calculateStyle. rewrite Hrel. fold bd.
  destruct (gt bd 0%float) eqn:Hbd.
  - exists 0%float. repeat split; auto. discriminate.
  - exists bd. repeat split; auto. discriminate.
Qed.

Lemma calculateStyle_fixed_witness :
  ∃ sty,
    calculateStyle defaultProps Fixture.dom true (Some 30%float) 50%float
      = Ok sty
    ∧ sty !! "top" = Some (SVNum (-20)%float)
    ∧ sty !! "position" = Some (SVStr "fixed")
    ∧ sty !! "clipPath" = None.
Proof.
  destruct (calculateStyle_fixed defaultProps Fixture.dom (Some 30%float)
              50%float eq_refl) as (top & Hsty & _ & _ & Htop).
  rewrite (Htop eq_refl) in Hsty.
  eexists. split; [exact Hsty|]. repeat split.
Defined.

(** X11.  A style has a [clipPath] exactly when the element is sticky, in
    relative mode, and [distanceFromBottom - bottomOffset -
    calculatedHeight] is at most 0; the clip is then [inset] by the
    opposite of that difference, and [top] is the container's offset (less
    the scroll offset of its offset parent) plus the difference. *)
Theorem calculateStyle_clipPath props dom sticky dfb height sty :
  calculateStyle props dom sticky dfb height = Ok sty →
  let bottomDifference :=
    sub (sub (ToNumber dfb) (nullish (bottomOffset props) 0%float)) height in
  (is_Some (sty !! "clipPath")
   ↔ sticky = true ∧ truthy (relative props) = true
     ∧ le bottomDifference 0%float = true)
  ∧ (is_Some (sty !! "clipPath") →
     sty !! "clipPath" = Some (SVInset (neg bottomDifference))
     ∧ ∃ parent, node dom = Some parent
         ∧ sty !! "top" =
             Some (SVNum (add (sub (offsetTop parent)
                                   (nullish (op_scrollTop <$> offsetParent parent)
                                            0%float))
                              bottomDifference))).
Proof.
  intros Hsty bd. unfold calculateStyle in Hsty. fold bd in Hsty.
  destruct sticky.
  - destruct (truthy (relative props)).
    + destruct (node dom) as [parent|]; simpl in Hsty; [|discriminate].
      destruct (le bd 0%float); injection Hsty as <-.
      * split; [split; [auto|intros _; rewrite lookup_insert_eq; eauto]|].
        intros _. split; [apply lookup_insert_eq|].
        exists parent. split; [reflexivity|].
        rewrite lookup_insert_ne by discriminate. apply lookup_insert_eq.
      * assert (¬ is_Some ((<["width" := SVOfValue
                   (rect_width <$> (ph_rect <$> placeholder dom))]>
                 (<["top" := SVNum (sub (offsetTop parent)
                     (nullish (op_scrollTop <$> offsetParent parent) 0%float))]>
                  (<["position" := SVStr "absolute"]> ∅)) : gmap string StyleVal)
                 !! "clipPath")) as Hno.
        { rewrite !lookup_insert_ne by discriminate. rewrite lookup_empty.
          intros [? ?]; discriminate. }
        split; [split; [intros H; now destruct Hno|intros (_ & _ & ?); discriminate]|].
        intros H. now destruct Hno.
    + injection Hsty as <-.
      assert (∀ m : gmap string StyleVal,
                m = <["width" := SVOfValue
                        (rect_width <$> (ph_rect <$> placeholder dom))]>
                    (<["left" := SVOfValue
                         (rect_left <$> (ph_rect <$> placeholder dom))]>
                     (<["top" := SVNum (if gt bd 0%float then 0%float else bd)]>
                      (<["position" := SVStr "fixed"]> ∅))) →
                ¬ is_Some (m !! "clipPath")) as Hno.
      { intros m ->. rewrite !lookup_insert_ne by discriminate.
        rewrite lookup_empty. intros [? ?]; discriminate. }
      split; [split; [intros H; now destruct (Hno _ eq_refl)
                     |intros (_ & ? & _); discriminate]|].
      intros H. now destruct (Hno _ eq_refl).
  - injection Hsty as <-.
    split; [split; [rewrite lookup_empty; intros [? ?]; discriminate
                   |intros (? & _); discriminate]|].
    rewrite lookup_empty. intros [? ?]; discriminate.
Qed.

Lemma calculateStyle_clipPath_witness :
  ∃ sty,
    calculateStyle Fixture.propsRelative Fixture.dom true (Some 30%float)
      50%float = Ok sty
    ∧ sty !! "clipPath" = Some (SVInset 20%float)
    ∧ sty !! "top" = Some (SVNum (-20)%float).
Proof.
  destruct (calculateStyle Fixture.propsRelative Fixture.dom true
              (Some 30%float) 50%float) as [sty|e] eqn:Hsty;
    [|vm_compute in Hsty; discriminate].
  exists sty. split; [reflexivity|].
  destruct (calculateStyle_clipPath _ _ _ _ _ _ Hsty) as [Hiff Hval].
  destruct (Hval (proj2 Hiff (conj eq_refl (conj eq_refl eq_refl))))
    as (Hclip & parent & Hparent & Htop).
  injection Hparent as <-. split; [exact Hclip|exact Htop].
Defined.

(** X12.  Missing refs.  Without a content node the measured height is 0
    and the placeholder's padding is written as 0px even when the element
    is sticky; without a placeholder nothing is written, and the style of a
    sticky element has an undefined [width]. *)
Theorem handleContainerEvent_missing_refs props0 props state dom sample st' dom' :
  handleContainerEvent props0 props state dom sample = Ok (st', dom') →
  (content dom = None →
   calculatedHeight st' = 0%float
   ∧ paddingBottom <$> placeholder dom'
     = (λ _, CssPx 0%float) <$> placeholder dom)
  ∧ (placeholder dom = None →
     placeholder dom' = None
     ∧ (isSticky st' = true → style st' !! "width" = Some SVUndefined)).
Proof.
  intros Hrun.
  destruct (handleContainerEvent_Ok _ _ _ _ _ _ _ Hrun)
    as (d & sty & _ & Hsty & _ & _ & _ & Hheight & Hstyle & Hph).
  split.
  - intros Hc. rewrite Hc in Hheight. simpl in Hheight.
    split; [exact Hheight|]. rewrite Hph, Hheight.
    destruct (placeholder dom); simpl; [|reflexivity].
    now destruct (isSticky st').
  - intros Hp. rewrite Hp in Hph. split; [exact Hph|].
    intros Hs. rewrite Hs in Hsty. unfold calculateStyle in Hsty.
    rewrite Hp in Hsty. simpl in Hsty.
    assert (sty !! "width" = Some SVUndefined) as Hw.
    { destruct (truthy (relative props0)).
      - destruct (node dom); simpl in Hsty; [|discriminate].
        destruct (le _ _); injection Hsty as <-;
          rewrite ?(lookup_insert_ne _ "clipPath"), ?(lookup_insert_ne _ "top")
            by discriminate; apply lookup_insert_eq.
      - injection Hsty as <-. apply lookup_insert_eq. }
    rewrite Hstyle. destruct (negb _); [|exact Hw].
    rewrite lookup_insert_ne by discriminate. exact Hw.
Qed.

Lemma handleContainerEvent_missing_refs_witness :
  ∃ st' dom',
    handleContainerEvent defaultProps defaultProps initialState
      {| node := Some Fixture.root; placeholder := placeholder Fixture.dom;
         content := None |}
      Fixture.sampleStuck = Ok (st', dom')
    ∧ isSticky st' = true
    ∧ paddingBottom <$> placeholder dom' = Some (CssPx 0%float).
Proof.
  match goal with
  | |- context [handleContainerEvent ?a ?b ?c ?d ?e] =>
      destruct (handleContainerEvent a b c d e) as [[st' dom']|e'] eqn:Hrun;
        [|vm_compute in Hrun; discriminate]
  end.
  exists st', dom'. split; [reflexivity|].
  destruct (handleContainerEvent_missing_refs _ _ _ _ _ _ _ Hrun) as [Hc _].
  destruct (Hc eq_refl) as [_ Hpad].
  split; [|exact Hpad].
  vm_compute in Hrun. now injection Hrun as <- _.
Defined.

(** ** The two thresholds, each on its own *)

Lemma SFcompare_antisym (x y : SpecFloat.spec_float) c :
  SpecFloat.SFcompare x y = Some c →
  SpecFloat.SFcompare y x = Some (CompOpp c).
Proof.
  destruct x as [sx|sx| |sx mx ex], y as [sy|sy| |sy my ey]; simpl;
    try (destruct sx); try (destruct sy); try discriminate;
    try (intros Hc; injection Hc as <-; reflexivity).
  - intros Hc. injection Hc as <-. f_equal.
    rewrite (Z.compare_antisym ex ey).
    pose proof (Pos.compare_cont_antisym mx my Eq) as Ha. simpl in Ha.
    destruct (ex ?= ey)%Z; simpl; try reflexivity.
    now rewrite <- Ha.
  - intros Hc. injection Hc as <-. f_equal.
    rewrite (Z.compare_antisym ex ey).
    pose proof (Pos.compare_cont_antisym mx my Eq) as Ha. simpl in Ha.
    destruct (ex ?= ey)%Z; simpl; try reflexivity.
    now rewrite <- Ha.
Qed.

(** [a > b] excludes [a <= b], and [a <= b] excludes [a > b]. *)
Lemma not_le_of_gt (a b : float) : JS.gt a b = true → JS.le a b = false.
Proof.
  unfold JS.gt, JS.le.
  rewrite FloatAxioms.ltb_spec, FloatAxioms.leb_spec.
  unfold SpecFloat.SFltb, SpecFloat.SFleb.
  destruct (SpecFloat.SFcompare (Prim2SF b) (Prim2SF a)) as [[]|] eqn:C;
    try discriminate.
  now rewrite (SFcompare_antisym _ _ _ C).
Qed.

Lemma not_gt_of_le (a b : float) : JS.le a b = true → JS.gt a b = false.
Proof.
  intros Hle. destruct (JS.gt a b) eqn:Hgt; [|reflexivity].
  rewrite (not_le_of_gt _ _ Hgt) in Hle. discriminate.
Qed.

(** X13.  Each threshold ends stickiness on its own: a published
    [distanceFromTop] above [-(topOffset ?? 0)] makes the element not
    sticky whatever the bottom distance, a sample's [distanceFromBottom] at
    or below [-(bottomOffset ?? 0)] does so whatever the top distance, and
    so does a sample whose [distanceFromBottom] is undefined. *)
Theorem isSticky_false_cases props0 props state dom sample st' dom' :
  handleContainerEvent props0 props state dom sample = Ok (st', dom') →
  JS.gt (ToNumber (distanceFromTop st'))
        (neg (nullish (topOffset props) 0%float)) = true
  ∨ JS.le (ToNumber (sample_distanceFromBottom sample))
          (neg (nullish (bottomOffset props) 0%float)) = true
  ∨ sample_distanceFromBottom sample = None →
  isSticky st' = false.
Proof.
  intros Hrun Hcase.
  destruct (handleContainerEvent_Ok _ _ _ _ _ _ _ Hrun)
    as (d & _ & _ & _ & Hs & _ & Hd & _).
  rewrite Hs. rewrite <- Hd. destruct Hcase as [Htop|[Hbot| Hundef]].
  - now rewrite (not_le_of_gt _ _ Htop).
  - rewrite (not_gt_of_le _ _ Hbot). apply andb_false_r.
  - rewrite Hundef. simpl. rewrite gt_nan. apply andb_false_r.
Qed.

Lemma isSticky_false_cases_witness :
  ∃ st' dom',
    handleContainerEvent defaultProps defaultProps initialState Fixture.dom
      Fixture.sampleFlow = Ok (st', dom')
    ∧ isSticky st' = false.
Proof.
  destruct (handleContainerEvent defaultProps defaultProps initialState
              Fixture.dom Fixture.sampleFlow) as [[st' dom']|e] eqn:Hrun;
    [|vm_compute in Hrun; discriminate].
  exists st', dom'. split; [reflexivity|].
  apply (isSticky_false_cases _ _ _ _ _ _ _ Hrun). left.
  vm_compute in Hrun. injection Hrun as <- _. reflexivity.
Defined.
